(** * DACTP SDK: reputation tiers, read-only queries, transaction building
      and the lending integration, embedded from the TypeScript sources.

    Sources embedded here:
    - [dactp-sdk/src/types/Reputation] (tables [REPUTATION_TIERS], [REPUTATION_DELTAS]),
    - [dactp-sdk/src/utils/stellar.ts] (class [StellarClient]),
    - [dactp-sdk/src/core/AgentManager], [ReputationManager], [DACTP.ts],
    - [dactp-sdk/src/examples/lending-protocol.ts] (class [StellarLendIntegration]).

    The Soroban contracts themselves (agent registry, reputation ledger, loan
    engine) are not part of the sources; the agent registry is modelled from
    the specification, after the SDK. *)

From Stdlib Require Import ZArith QArith Qround Bool List String Ascii DecimalString Lia.
From stdpp Require Import gmap strings.
Import ListNotations.

Local Open Scope string_scope.
Local Open Scope Z_scope.

#[local] Set Warnings "-register-all".

(** ** JavaScript numbers

    A JavaScript [number] is an IEEE-754 double.  Finite values are modelled
    by rationals (the doubles are a subset) with exact arithmetic; the two
    infinities and NaN are kept apart because every comparison with NaN is
    false, which matters for the band test of [getTier].  Rounding is not
    modelled: the theorems below only add integers of small magnitude, or
    clamp the sum, where the rounded and the exact sum give the same result. *)

Inductive number : Type :=
| Fin (q : Q)
| PosInf
| NegInf
| NaN.

Definition int (z : Z) : number := Fin (inject_Z z).

(** [a <= b] *)
Definition num_le (a b : number) : bool :=
  match a, b with
  | NaN, _ | _, NaN => false
  | NegInf, _ => true
  | _, PosInf => true
  | Fin x, Fin y => Qle_bool x y
  | _, _ => false
  end.

(** [a < b] *)
Definition num_lt (a b : number) : bool :=
  match a, b with
  | NaN, _ | _, NaN => false
  | PosInf, _ => false
  | _, NegInf => false
  | Fin x, Fin y => negb (Qle_bool y x)
  | _, _ => true
  end.

(** [a >= b] and [a > b] are the mirrored comparisons. *)
Definition num_ge (a b : number) : bool := num_le b a.
Definition num_gt (a b : number) : bool := num_lt b a.

(** [a === b] on numbers. *)
Definition strict_eq (a b : number) : bool :=
  match a, b with
  | Fin x, Fin y => Qeq_bool x y
  | PosInf, PosInf => true
  | NegInf, NegInf => true
  | _, _ => false
  end.

(** [a + b] *)
Definition num_add (a b : number) : number :=
  match a, b with
  | NaN, _ | _, NaN => NaN
  | PosInf, NegInf | NegInf, PosInf => NaN
  | PosInf, _ | _, PosInf => PosInf
  | NegInf, _ | _, NegInf => NegInf
  | Fin x, Fin y => Fin (x + y)
  end.

(** [Math.max(a, b)] and [Math.min(a, b)]: NaN if either argument is NaN. *)
Definition Math_max (a b : number) : number :=
  match a, b with
  | NaN, _ | _, NaN => NaN
  | _, _ => if num_le a b then b else a
  end.

Definition Math_min (a b : number) : number :=
  match a, b with
  | NaN, _ | _, NaN => NaN
  | _, _ => if num_le a b then a else b
  end.

(** ** types/Reputation *)

Record ReputationTier : Type := mkTier {
  tier : number;
  name : string;
  minScore : number;
  maxScore : number;
  maxLoanAmount : number;
  color : string;
  description : string
}.

Record ReputationScore : Type := mkScore {
  score : number;
  score_tier : ReputationTier;
  lastUpdated : number
}.

Definition tier_no_credit : ReputationTier :=
  {| tier := int 0; name := "No Credit"; minScore := int 0; maxScore := int 49;
     maxLoanAmount := int 0; color := "#ef4444";
     description := "No lending access - build reputation first" |}.

Definition tier_basic : ReputationTier :=
  {| tier := int 1; name := "Basic"; minScore := int 50; maxScore := int 59;
     maxLoanAmount := Fin (1 # 2); color := "#f97316";
     description := "Small loans available - prove your reliability" |}.

Definition tier_good : ReputationTier :=
  {| tier := int 2; name := "Good"; minScore := int 60; maxScore := int 74;
     maxLoanAmount := int 2; color := "#eab308";
     description := "Moderate loans available - good track record" |}.

Definition tier_excellent : ReputationTier :=
  {| tier := int 3; name := "Excellent"; minScore := int 75; maxScore := int 89;
     maxLoanAmount := int 5; color := "#84cc16";
     description := "Large loans available - excellent reputation" |}.

Definition tier_elite : ReputationTier :=
  {| tier := int 4; name := "Elite"; minScore := int 90; maxScore := int 100;
     maxLoanAmount := int 10; color := "#22c55e";
     description := "Maximum loans available - elite status" |}.

Definition REPUTATION_TIERS : list ReputationTier :=
  [tier_no_credit; tier_basic; tier_good; tier_excellent; tier_elite].

(** The keys of the [REPUTATION_DELTAS] object. *)
Inductive DeltaAction : Type :=
| EARLY_PAYMENT
| ON_TIME_PAYMENT
| LATE_PAYMENT
| DEFAULT
| SUCCESSFUL_TRADE
| FAILED_TRADE
| STAKE_REWARD
| GOVERNANCE_PARTICIPATION.

Definition REPUTATION_DELTAS (action : DeltaAction) : number :=
  match action with
  | EARLY_PAYMENT => int 12
  | ON_TIME_PAYMENT => int 8
  | LATE_PAYMENT => int (-5)
  | DEFAULT => int (-25)
  | SUCCESSFUL_TRADE => int 2
  | FAILED_TRADE => int (-5)
  | STAKE_REWARD => int 1
  | GOVERNANCE_PARTICIPATION => int 3
  end.

(** ** ReputationManager: the pure part *)

(** The loop condition of [getTier]:
    [score >= tier.minScore && score <= tier.maxScore]. *)
Definition in_band (score : number) (t : ReputationTier) : bool :=
  num_ge score (minScore t) && num_le score (maxScore t).

(** [getTier]: the first band of the table that contains the score, and
    [REPUTATION_TIERS[0]] when the loop finds none. *)
Definition getTier (score : number) : ReputationTier :=
  match find (in_band score) REPUTATION_TIERS with
  | Some t => t
  | None => nth 0 REPUTATION_TIERS tier_no_credit
  end.

Definition getMaxLoanAmount (score : number) : number :=
  maxLoanAmount (getTier score).

Definition qualifiesForTier (score targetTier : number) : bool :=
  num_ge (tier (getTier score)) targetTier.

Definition getAllTiers : list ReputationTier := REPUTATION_TIERS.

Definition getReputationDelta (action : DeltaAction) : number :=
  REPUTATION_DELTAS action.

(** [predictNewScore]; [now] is the reading of [Date.now()]. *)
Definition predictNewScore (currentScore delta now : number) : ReputationScore :=
  let newScore := Math_max (int 0) (Math_min (int 100) (num_add currentScore delta)) in
  {| score := newScore; score_tier := getTier newScore; lastUpdated := now |}.

Definition getReputationLevel (score : number) : string := name (getTier score).
Definition getReputationColor (score : number) : string := color (getTier score).

(** The specification's [clamp(x, lo, hi)] on integers, written from its
    words: values below the range go to [lo], values above it to [hi]. *)
Definition clamp (x lo hi : Z) : Z :=
  if x <? lo then lo else if hi <? x then hi else x.

(** The score after a sequence of deltas, each applied as [predictNewScore]
    applies it. *)
Definition apply_deltas (now : number) (s : number) (deltas : list number) : number :=
  fold_left (fun s d => score (predictNewScore s d now)) deltas s.

(** Finite scores outside [0,100], or strictly between two adjacent bands. *)
Definition between_bands (q : Q) : Prop :=
  (q < 0 \/ 100 < q \/ (49 < q /\ q < 50) \/ (59 < q /\ q < 60)
   \/ (74 < q /\ q < 75) \/ (89 < q /\ q < 90))%Q.

(** ** JavaScript values, errors and effects *)

(** The dynamically typed values that cross the contract boundary
    ([any] in the TypeScript signatures). *)
Inductive value : Type :=
| VUndefined
| VNull
| VBool (b : bool)
| VNumber (n : number)
| VString (s : string)
| VArray (items : list value)
| VObject (props : list (string * value)).

(** [Boolean(v)], also the test of [v ? a : b]. *)
Definition is_truthy (v : value) : bool :=
  match v with
  | VUndefined | VNull => false
  | VBool b => b
  | VNumber (Fin q) => negb (Qeq_bool q 0)
  | VNumber NaN => false
  | VNumber _ => true
  | VString s => negb (String.eqb s "")
  | VArray _ | VObject _ => true
  end.

(** [typeof v === 'number' ? v : d] *)
Definition number_or (v : value) (d : number) : number :=
  match v with
  | VNumber n => n
  | _ => d
  end.

(** [v !== null] *)
Definition not_null (v : value) : bool :=
  match v with
  | VNull => false
  | _ => true
  end.

(** types/Common: [ErrorCodes] and the thrown values.  [Error] stands for a
    plain [Error] and for whatever the Stellar library or the network
    raises; [DACTPError] carries its code and the wrapped cause. *)
Inductive ErrorCodes : Type :=
| NETWORK_ERROR
| CONTRACT_ERROR
| VALIDATION_ERROR
| WALLET_ERROR
| UNAUTHORIZED
| INSUFFICIENT_REPUTATION.

Inductive js_error : Type :=
| Error (message : string)
| DACTPError (message : string) (code : ErrorCodes) (details : option js_error).

Definition error_message (e : js_error) : string :=
  match e with
  | Error m => m
  | DACTPError m _ _ => m
  end.

Definition is_DACTPError (e : js_error) : bool :=
  match e with
  | DACTPError _ _ _ => true
  | Error _ => false
  end.

(** [s.includes(sub)] *)
Definition includes (sub s : string) : bool :=
  match String.index 0 sub s with
  | Some _ => true
  | None => false
  end.

(** A built transaction, observed through [toXDR()]. *)
Record transaction : Type := mkTx { toXDR : string }.

(** The return value of a simulation as the RPC hands it over, still in XDR. *)
Record scval : Type := mkScVal { scval_xdr : string }.

(** What [scValToNative] yields: a [bigint] or any other native value. *)
Inductive native : Type :=
| NBigInt (z : Z)
| NValue (v : value).

(** The response of [rpc.simulateTransaction]: it has an [error] field, or
    a [result] whose [retval] may be missing. *)
Inductive sim_response : Type :=
| SimError (error : string)
| SimSuccess (retval : option scval).

(** Interactions with the network, in the order they happen.  Each one is
    the call as it is made: [EvBuildContractTx] records that
    [buildContractTx] was asked for a transaction, whether or not one came
    back. *)
Inductive event : Type :=
| EvBuildReadOnly (contractId method : string) (args : list value)
| EvSimulate (tx : transaction)
| EvBuildContractTx (publicKey contractId method : string) (args : list value)
| EvSendTransaction (signedXdr : string).

Inductive outcome (A : Type) : Type :=
| Returns (a : A)
| Throws (e : js_error).
Arguments Returns {A} a.
Arguments Throws {A} e.

(** Everything outside the SDK: the Stellar library, the RPC server, the
    clock and the number printer of the JavaScript runtime.  Each network
    answer may depend on the interactions made so far. *)
Record Env : Type := mkEnv {
  (* the body of [buildReadOnlyTx]: dummy account, Contract, toScVal, TransactionBuilder *)
  readOnlyTx : list event -> string -> string -> list value -> outcome transaction;
  (* rpc.simulateTransaction *)
  simulateTransaction : list event -> transaction -> outcome sim_response;
  (* scValToNative *)
  scValToNative : scval -> outcome native;
  (* the body of [buildContractTx]: rpc.getAccount, Contract, toScVal,
     TransactionBuilder, rpc.prepareTransaction *)
  preparedTx : list event -> string -> string -> string -> list value -> outcome transaction;
  (* TransactionBuilder.fromXDR and rpc.sendTransaction *)
  sendTransaction : list event -> string -> outcome value;
  (* Date.now() *)
  clock : list event -> number;
  (* Number.prototype.toString, used by template literals *)
  toString : number -> string
}.

(** Computations that may throw and that talk to the network: the history
    of interactions is threaded through. *)
Definition M (A : Type) : Type := list event -> outcome A * list event.

Definition ret {A} (a : A) : M A := fun h => (Returns a, h).

Definition throw {A} (e : js_error) : M A := fun h => (Throws e, h).

Definition bind {A B} (m : M A) (k : A -> M B) : M B :=
  fun h =>
    match m h with
    | (Returns a, h') => k a h'
    | (Throws e, h') => (Throws e, h')
    end.

(** [try { m } catch (error) { handler }] *)
Definition try_catch {A} (m : M A) (handler : js_error -> M A) : M A :=
  fun h =>
    match m h with
    | (Returns a, h') => (Returns a, h')
    | (Throws e, h') => handler e h'
    end.

(** One interaction: the answer is read off the history so far and the
    interaction is recorded. *)
Definition perform {A} (ev : event) (answer : list event -> outcome A) : M A :=
  fun h => (answer h, (h ++ [ev])%list).

Notation "x <- c1 ;; c2" := (bind c1 (fun x => c2))
  (at level 100, c1 at next level, right associativity).

(** types/Common and the contract addresses of a [NetworkConfig]. *)
Record Contracts : Type := mkContracts {
  agentManager : string;
  reputationManager : string;
  lendingDemo : string;
  xlmToken : string
}.

Definition futurenet_contracts : Contracts :=
  {| agentManager := "CD4L232BN5LS537F23LF4GAL53I6GV6JDKYQ73B6HE4YY6S6OZR3MS4R";
     reputationManager := "CDWF4BNN2GTUHDKRBPSUA7K6NTIS75YYVHBSFFFDGWPWU635GZY6PHEN";
     lendingDemo := "CD4ZOPXBNM7NV5FVY2L2ZW4TKLDC4B4CKHE3II5VCA743CPKFMH3N4WM";
     xlmToken := "CB64D3G7SM2RTH6JSGG34DDTFTQ5CFDKVDZJZSODMCX4NJ2HV2KN7OHT" |}.

(** [TxOptions]; an absent field is [None]. *)
Record TxOptions : Type := mkTxOptions {
  signAndSend : option bool;
  secretKey : option string;
  fee : option number
}.

(** [options: TxOptions = {}] *)
Definition no_options : TxOptions :=
  {| signAndSend := None; secretKey := None; fee := None |}.

(** [options.signAndSend === false] *)
Definition signAndSend_is_false (options : TxOptions) : bool :=
  match signAndSend options with
  | Some false => true
  | _ => false
  end.

(** [TxResult]; the optional fields [events] and [error] are never set by
    the SDK and are left out. *)
Record TxResult : Type := mkTxResult {
  hash : string;
  success : bool
}.

(** types/Agent *)
Record RegisterAgentParams : Type := mkRegisterAgentParams {
  reg_owner : string;
  reg_agent : string;
  reg_scopes : list string;
  reg_maxAmount : number
}.

Record RevokeAgentParams : Type := mkRevokeAgentParams {
  rev_owner : string;
  rev_agent : string
}.

Record AuthorizationCheck : Type := mkAuthorizationCheck {
  check_agent : string;
  check_action : string;
  check_amount : number
}.

(** [AuthorizationResult]; the optional [maxAllowed] is never set. *)
Record AuthorizationResult : Type := mkAuthorizationResult {
  authorized : bool;
  auth_reason : option string
}.

Record UpdateScoreParams : Type := mkUpdateScoreParams {
  upd_caller : string;
  upd_agent : string;
  upd_delta : number
}.

Section SDK.

Variable E : Env.
(* this.stellar.contracts *)
Variable contracts : Contracts.

(** ** utils/stellar.ts: StellarClient *)

(** [parseScVal]: a missing value is [null], a [bigint] becomes a number,
    and a value that cannot be decoded is replaced by [0]. *)
Definition parseScVal (scVal : option scval) : value :=
  match scVal with
  | None => VNull
  | Some sv =>
      match scValToNative E sv with
      | Returns (NBigInt z) => VNumber (int z)
      | Returns (NValue v) => v
      | Throws _ => VNumber (int 0)
      end
  end.

Definition buildReadOnlyTx (contractId method : string) (args : list value)
  : M transaction :=
  try_catch
    (perform (EvBuildReadOnly contractId method args)
       (fun h => readOnlyTx E h contractId method args))
    (fun error =>
       throw (DACTPError "Failed to build read-only transaction" CONTRACT_ERROR
                (Some error))).

Definition buildContractTx (publicKey contractId method : string)
  (args : list value) : M transaction :=
  try_catch
    (perform (EvBuildContractTx publicKey contractId method args)
       (fun h => preparedTx E h publicKey contractId method args))
    (fun error =>
       if includes "Account not found" (error_message error)
       then throw (DACTPError
                     ("Account not found: " ++ publicKey ++ ". Fund this account first.")
                     WALLET_ERROR (Some error))
       else throw (DACTPError "Failed to build contract transaction" CONTRACT_ERROR
                     (Some error))).

Definition submitTx (signedXdr : string) : M value :=
  try_catch
    (perform (EvSendTransaction signedXdr) (fun h => sendTransaction E h signedXdr))
    (fun error =>
       throw (DACTPError "Failed to submit transaction" NETWORK_ERROR (Some error))).

Definition simulateCall (contractId method : string) (args : list value)
  : M value :=
  try_catch
    (tx <- buildReadOnlyTx contractId method args ;;
     result <- perform (EvSimulate tx) (fun h => simulateTransaction E h tx) ;;
     match result with
     | SimError err => throw (Error err)
     | SimSuccess retval => ret (parseScVal retval)
     end)
    (fun error =>
       throw (DACTPError "Contract simulation failed" CONTRACT_ERROR (Some error))).

(** [Date.now()] *)
Definition Date_now : M number := fun h => (Returns (clock E h), h).

(** ** core/AgentManager *)

Definition wallet_not_implemented : js_error :=
  DACTPError
    "Wallet signing not implemented yet. Use signAndSend: false to get unsigned XDR."
    WALLET_ERROR None.

Definition register (params : RegisterAgentParams) (options : TxOptions)
  : M TxResult :=
  try_catch
    (let args := [VString (reg_owner params); VString (reg_agent params);
                  VArray (map VString (reg_scopes params));
                  VNumber (reg_maxAmount params)] in
     if signAndSend_is_false options then
       tx <- buildContractTx (reg_owner params) (agentManager contracts)
               "register_agent" args ;;
       ret {| hash := toXDR tx; success := true |}
     else throw wallet_not_implemented)
    (fun error =>
       throw (DACTPError ("Agent registration failed: " ++ error_message error)
                CONTRACT_ERROR (Some error))).

Definition revoke (params : RevokeAgentParams) (options : TxOptions)
  : M TxResult :=
  try_catch
    (let args := [VString (rev_owner params); VString (rev_agent params)] in
     if signAndSend_is_false options then
       tx <- buildContractTx (rev_owner params) (agentManager contracts)
               "revoke_agent" args ;;
       ret {| hash := toXDR tx; success := true |}
     else throw wallet_not_implemented)
    (fun error =>
       throw (DACTPError ("Agent revocation failed: " ++ error_message error)
                CONTRACT_ERROR (Some error))).

Definition isAuthorized (check : AuthorizationCheck) : M AuthorizationResult :=
  try_catch
    (result <- simulateCall (agentManager contracts) "is_authorized"
                 [VString (check_agent check); VString (check_action check);
                  VNumber (check_amount check)] ;;
     ret {| authorized := is_truthy result;
            auth_reason := if is_truthy result then None
                           else Some "Agent not authorized or amount exceeds limit" |})
    (fun error =>
       ret {| authorized := false;
              auth_reason := Some ("Authorization check failed: " ++ error_message error) |}).

(** [getInfo]; the [console.warn] of the handler is not modelled. *)
Definition getInfo (agentAddress : string) : M value :=
  try_catch
    (simulateCall (agentManager contracts) "get_agent_info" [VString agentAddress])
    (fun error => ret VNull).

Definition exists_ (agentAddress : string) : M bool :=
  info <- getInfo agentAddress ;;
  ret (not_null info).

(** ** core/ReputationManager: the queries and the update *)

Definition getScore (agentAddress : string) : M ReputationScore :=
  try_catch
    (score <- simulateCall (reputationManager contracts) "get_score"
                [VString agentAddress] ;;
     let numericScore := number_or score (int 50) in
     let tier := getTier numericScore in
     now <- Date_now ;;
     ret {| score := numericScore; score_tier := tier; lastUpdated := now |})
    (fun error =>
       let tier := getTier (int 50) in
       now <- Date_now ;;
       ret {| score := int 50; score_tier := tier; lastUpdated := now |}).

Definition updateScore (params : UpdateScoreParams) (options : TxOptions)
  : M TxResult :=
  try_catch
    (let args := [VString (upd_caller params); VString (upd_agent params);
                  VNumber (upd_delta params)] in
     if signAndSend_is_false options then
       tx <- buildContractTx (upd_caller params) (reputationManager contracts)
               "update_score" args ;;
       ret {| hash := toXDR tx; success := true |}
     else throw wallet_not_implemented)
    (fun error =>
       throw (DACTPError ("Reputation update failed: " ++ error_message error)
                CONTRACT_ERROR (Some error))).

Definition hasMinimumReputation (agentAddress : string) (minimumScore : number)
  : M bool :=
  reputation <- getScore agentAddress ;;
  ret (num_ge (score reputation) minimumScore).

(** ** core/DACTP.ts *)

Definition registerAgent (owner agent : string) (scopes : list string)
  (maxAmount : number) (options : TxOptions) : M TxResult :=
  register {| reg_owner := owner; reg_agent := agent; reg_scopes := scopes;
              reg_maxAmount := maxAmount |} options.

Definition checkAuthorization (agent action : string) (amount : number) : M bool :=
  result <- isAuthorized {| check_agent := agent; check_action := action;
                            check_amount := amount |} ;;
  ret (authorized result).

Definition getReputationScore (agentAddress : string) : M number :=
  reputation <- getScore agentAddress ;;
  ret (score reputation).

Definition updateReputation (caller agent : string) (delta : number)
  (options : TxOptions) : M TxResult :=
  updateScore {| upd_caller := caller; upd_agent := agent; upd_delta := delta |}
    options.

Definition DACTP_getMaxLoanAmount (agentAddress : string) : M number :=
  score <- getReputationScore agentAddress ;;
  ret (getMaxLoanAmount score).

(** The object returned by [canPerformAction]. *)
Record ActionCheck : Type := mkActionCheck {
  canPerform : bool;
  check_reason : option string;
  currentReputation : option number;
  check_maxAllowed : option number
}.

(** [r || d] on an optional string: an absent or empty string is falsy. *)
Definition string_or (r : option string) (d : string) : string :=
  match r with
  | Some s => if String.eqb s "" then d else s
  | None => d
  end.

(** [minimumReputation: number = 50] *)
Definition default_minimumReputation (m : option number) : number :=
  match m with
  | Some n => n
  | None => int 50
  end.

Definition canPerformAction (agent action : string) (amount : number)
  (minimumReputation : option number) : M ActionCheck :=
  let minimumReputation := default_minimumReputation minimumReputation in
  try_catch
    ((* Check authorization first *)
     authResult <- isAuthorized {| check_agent := agent; check_action := action;
                                   check_amount := amount |} ;;
     if negb (authorized authResult) then
       ret {| canPerform := false;
              check_reason := Some (string_or (auth_reason authResult) "Not authorized");
              currentReputation := None; check_maxAllowed := None |}
     else
       (* Check reputation *)
       reputation <- getScore agent ;;
       if num_lt (score reputation) minimumReputation then
         ret {| canPerform := false;
                check_reason :=
                  Some ("Insufficient reputation. Required: "
                        ++ toString E minimumReputation
                        ++ ", Current: " ++ toString E (score reputation));
                currentReputation := Some (score reputation);
                check_maxAllowed := None |}
       else
         (* Check reputation-based limits *)
         let maxAllowed := getMaxLoanAmount (score reputation) in
         if num_gt amount maxAllowed then
           ret {| canPerform := false;
                  check_reason := Some "Amount exceeds reputation-based limit";
                  currentReputation := Some (score reputation);
                  check_maxAllowed := Some maxAllowed |}
         else
           ret {| canPerform := true; check_reason := None;
                  currentReputation := Some (score reputation);
                  check_maxAllowed := Some maxAllowed |})
    (fun error =>
       ret {| canPerform := false;
              check_reason := Some ("Check failed: " ++ error_message error);
              currentReputation := None; check_maxAllowed := None |}).

(** [typeof address === 'string' && address.startsWith(c) && address.length === 56];
    a JavaScript string is a Rocq [string], one character per code unit. *)
Definition isValidAgentAddress (address : value) : bool :=
  match address with
  | VString s => String.prefix "G" s && Nat.eqb (String.length s) 56
  | _ => false
  end.

Definition isValidContractAddress (address : value) : bool :=
  match address with
  | VString s => String.prefix "C" s && Nat.eqb (String.length s) 56
  | _ => false
  end.

End SDK.

(** ** More arithmetic on numbers, for the interest rate

    As for [num_add], finite results are exact rationals; the rounding of
    the doubles is not modelled and no theorem below depends on a rate. *)

Definition num_neg (a : number) : number :=
  match a with
  | Fin x => Fin (- x)
  | PosInf => NegInf
  | NegInf => PosInf
  | NaN => NaN
  end.

(** [a - b] *)
Definition num_sub (a b : number) : number := num_add a (num_neg b).

(** An infinity with the sign of [q], NaN when [q] is zero. *)
Definition signed_inf (q : Q) : number :=
  match (q ?= 0)%Q with
  | Eq => NaN
  | Gt => PosInf
  | Lt => NegInf
  end.

(** [a * b] *)
Definition num_mul (a b : number) : number :=
  match a, b with
  | NaN, _ | _, NaN => NaN
  | Fin x, Fin y => Fin (x * y)
  | Fin x, PosInf | PosInf, Fin x => signed_inf x
  | Fin x, NegInf | NegInf, Fin x => signed_inf (- x)
  | PosInf, PosInf | NegInf, NegInf => PosInf
  | PosInf, NegInf | NegInf, PosInf => NegInf
  end.

(** [a / b] *)
Definition num_div (a b : number) : number :=
  match a, b with
  | NaN, _ | _, NaN => NaN
  | Fin x, Fin y => if Qeq_bool y 0 then signed_inf x else Fin (x / y)
  | Fin _, _ => Fin 0
  | PosInf, Fin y => if Qle_bool 0 y then PosInf else NegInf
  | NegInf, Fin y => if Qle_bool 0 y then NegInf else PosInf
  | _, _ => NaN
  end.

(** A possibly [undefined] number used in arithmetic: [undefined] coerces
    to NaN (the [!] of [canBorrow.currentReputation!] is erased). *)
Definition to_number (o : option number) : number :=
  match o with
  | Some n => n
  | None => NaN
  end.

(** ** examples/lending-protocol.ts: StellarLendIntegration *)

(** The object returned by [processLoanRequest]. *)
Record LoanDecision : Type := mkLoanDecision {
  approved : bool;
  loan_reason : option string;
  loan_maxAllowed : option number;
  interestRate : option number
}.

(** The object returned by [processLoanRepayment]. *)
Record RepaymentResult : Type := mkRepaymentResult {
  repayment_success : bool;
  reputationDelta : number
}.

Record BusinessChecks : Type := mkBusinessChecks {
  passed : bool;
  business_reason : option string
}.

Record BorrowerProfile : Type := mkBorrowerProfile {
  profile_reputation : number;
  profile_tier : string;
  profile_maxLoanAmount : number;
  estimatedInterestRate : number
}.

Definition calculateInterestRate (reputation : number) : number :=
  let baseRate := Fin (12 # 100) in
  let reputationDiscount :=
    Math_max (int 0) (num_div (num_sub reputation (int 50)) (int 100)) in
  Math_max (Fin (5 # 100)) (num_mul baseRate (num_sub (int 1) reputationDiscount)).

Definition performBusinessChecks (borrower : string) (amount : number)
  : M BusinessChecks :=
  if num_gt amount (int 1000) then
    ret {| passed := false;
           business_reason := Some "Amount exceeds protocol maximum" |}
  else ret {| passed := true; business_reason := None |}.

Section Lending.

Variable E : Env.
Variable contracts : Contracts.

(** [processLoanRequest]; [durationDays] (30 when omitted) is not used. *)
Definition processLoanRequest (borrower : string) (amount durationDays : number)
  : M LoanDecision :=
  try_catch
    ((* Step 1: Check if borrower can perform borrow action *)
     canBorrow <- canPerformAction E contracts borrower "borrow" amount
                    (Some (int 60)) ;;
     if negb (canPerform canBorrow) then
       ret {| approved := false; loan_reason := check_reason canBorrow;
              loan_maxAllowed := check_maxAllowed canBorrow;
              interestRate := None |}
     else
       (* Step 2: Calculate reputation-based interest rate *)
       let reputation := to_number (currentReputation canBorrow) in
       let rate := calculateInterestRate reputation in
       (* Step 3: Additional business logic checks *)
       businessChecks <- performBusinessChecks borrower amount ;;
       if negb (passed businessChecks) then
         ret {| approved := false; loan_reason := business_reason businessChecks;
                loan_maxAllowed := None; interestRate := None |}
       else
         ret {| approved := true; loan_reason := None;
                loan_maxAllowed := check_maxAllowed canBorrow;
                interestRate := Some rate |})
    (fun error =>
       ret {| approved := false;
              loan_reason := Some ("Loan processing failed: " ++ error_message error);
              loan_maxAllowed := None; interestRate := None |}).

(** [{ signAndSend: false }] *)
Definition unsigned_only : TxOptions :=
  {| signAndSend := Some false; secretKey := None; fee := None |}.

(** [processLoanRepayment]; both flags are [false] when omitted, and
    [loanId] is not used. *)
Definition processLoanRepayment (borrower loanId : string)
  (isEarlyPayment isLatePayment : bool) : M RepaymentResult :=
  try_catch
    ((* Determine reputation delta based on payment timing *)
     let reputationDelta :=
       if isEarlyPayment then int 12
       else if isLatePayment then int (-5)
       else int 8 in
     _ <- updateReputation E contracts "LENDING_PROTOCOL_ADDRESS" borrower
            reputationDelta unsigned_only ;;
     ret {| repayment_success := true; reputationDelta := reputationDelta |})
    (fun error =>
       ret {| repayment_success := false; reputationDelta := int 0 |}).

(** [processLoanDefault]; [loanId] is not used, and the [console.log] and
    [console.error] calls are not modelled. *)
Definition processLoanDefault (borrower loanId : string) : M unit :=
  try_catch
    (_ <- updateReputation E contracts "LENDING_PROTOCOL_ADDRESS" borrower
            (int (-25)) unsigned_only ;;
     ret tt)
    (fun error => ret tt).

Definition getBorrowerProfile (borrower : string) : M BorrowerProfile :=
  reputation <- getScore E contracts borrower ;;
  maxLoanAmount <- DACTP_getMaxLoanAmount E contracts borrower ;;
  let rate := calculateInterestRate (score reputation) in
  ret {| profile_reputation := score reputation;
         profile_tier := name (score_tier reputation);
         profile_maxLoanAmount := maxLoanAmount;
         estimatedInterestRate := rate |}.

End Lending.

(** ** Observations on a history of interactions *)

(** The [(agent, delta)] pairs of the [update_score] transactions that
    [buildContractTx] was asked to build against the reputation contract. *)
Definition score_update_of (contracts : Contracts) (ev : event)
  : option (string * number) :=
  match ev with
  | EvBuildContractTx _ contractId method [VString _; VString agent; VNumber delta] =>
      if String.eqb contractId (reputationManager contracts)
         && String.eqb method "update_score"
      then Some (agent, delta) else None
  | _ => None
  end.

Fixpoint score_updates (contracts : Contracts) (h : list event)
  : list (string * number) :=
  match h with
  | [] => []
  | ev :: h' =>
      match score_update_of contracts ev with
      | Some u => u :: score_updates contracts h'
      | None => score_updates contracts h'
      end
  end.

(** Whether a transaction was submitted to the network. *)
Definition is_submission (ev : event) : bool :=
  match ev with
  | EvSendTransaction _ => true
  | _ => false
  end.

(** A failure reported as insufficient reputation: the reason built by
    [canPerformAction] for a score below the minimum. *)
Definition is_InsufficientReputation (reason : option string) : bool :=
  match reason with
  | Some s => String.prefix "Insufficient reputation" s
  | None => false
  end.

(** The history [h'] extends [h] by interactions none of which submits a
    transaction. *)
Definition extends_without_submission (h h' : list event) : Prop :=
  exists new : list event,
    h' = (h ++ new)%list /\ forallb (fun ev => negb (is_submission ev)) new = true.

(** The two ways a simulated contract call ends for its caller: it throws,
    or it returns a value. *)
Definition simulation_fails (E : Env) (contractId method : string)
  (args : list value) (h : list event) : Prop :=
  exists e h', simulateCall E contractId method args h = (Throws e, h').

Definition simulation_returns (E : Env) (contractId method : string)
  (args : list value) (h : list event) (v : value) : Prop :=
  exists h', simulateCall E contractId method args h = (Returns v, h').

(** How a state-changing SDK method behaves, [run] being the method applied
    to its parameters and [publicKey], [contractId], [method], [args] the
    contract call it stands for.  Unless [signAndSend] is explicitly [false]
    it throws a [DACTPError] without any interaction.  With
    [signAndSend: false] it asks once for the prepared transaction: it
    returns the XDR of that transaction in [hash], or throws a [DACTPError]
    when the transaction cannot be built.  Nothing is ever submitted. *)
Definition builds_unsigned_only (E : Env) (run : TxOptions -> M TxResult)
  (publicKey contractId method : string) (args : list value) : Prop :=
  forall (options : TxOptions) (h : list event),
    (signAndSend options <> Some false ->
       exists e, run options h = (Throws e, h) /\ is_DACTPError e = true)
    /\ (signAndSend options = Some false ->
        let h' := (h ++ [EvBuildContractTx publicKey contractId method args])%list in
        match preparedTx E h publicKey contractId method args with
        | Returns tx =>
            run options h = (Returns {| hash := toXDR tx; success := true |}, h')
        | Throws _ =>
            exists e, run options h = (Throws e, h') /\ is_DACTPError e = true
        end)
    /\ extends_without_submission h (snd (run options h)).

(** ** Repayment timing *)

(** Twelve hours, in the seconds of the ledger clock. *)
Definition twelve_hours : Z := 12 * 60 * 60.

(** Modelled from the spec: the classification of a repayment instant
    against the due date, which the loan contract performs and the callers
    of [processLoanRepayment] pass on as the two flags; the contract is not
    part of the sources.  A repayment is early when [now <= due_at - 12h]
    and late when [due_at < now <= due_at + grace]. *)
Definition isEarlyPayment_at (now due_at : Z) : bool :=
  now <=? due_at - twelve_hours.

Definition isLatePayment_at (now due_at grace : Z) : bool :=
  (due_at <? now) && (now <=? due_at + grace).

(** ** The agent registry *)

(** Modelled from the spec: the agent registry contract ([register_agent],
    [revoke_agent], [is_authorized], [get_agent_info]), which is not part
    of the sources; the SDK above only builds calls to it.  An agent record
    holds its owner, its scopes, its spending cap and the one-way [revoked]
    flag. *)
Record AgentRecord : Type := mkAgentRecord {
  owner : string;
  scopes : gset string;
  max_amount : N;
  revoked : bool
}.

Inductive registry_error : Type :=
| Unauthorized
| NotRegistered.

(** Modelled from the spec: [register_agent(owner, agent, scopes, max_amount)].
    The caller must authenticate as [owner], first of all.  The record of
    [agent] is created, or overwritten when it already belongs to [owner];
    a record owned by somebody else gives [Unauthorized].  The [revoked]
    flag is one-way, so overwriting keeps a flag that is already set. *)
Definition register_agent (caller owner' agent : string) (scopes' : gset string)
  (max_amount' : N) (reg : gmap string AgentRecord)
  : registry_error + gmap string AgentRecord :=
  if negb (String.eqb caller owner') then inl Unauthorized
  else
    match reg !! agent with
    | None =>
        inr (<[agent := {| owner := owner'; scopes := scopes';
                           max_amount := max_amount'; revoked := false |}]> reg)
    | Some r =>
        if negb (String.eqb (owner r) owner') then inl Unauthorized
        else
          inr (<[agent := {| owner := owner'; scopes := scopes';
                             max_amount := max_amount'; revoked := revoked r |}]> reg)
    end.

(** Modelled from the spec: [revoke_agent(owner, agent)] sets [revoked]
    permanently; [NotRegistered] without a record, [Unauthorized] when the
    caller is not the recorded owner. *)
Definition revoke_agent (caller owner' agent : string)
  (reg : gmap string AgentRecord) : registry_error + gmap string AgentRecord :=
  if negb (String.eqb caller owner') then inl Unauthorized
  else
    match reg !! agent with
    | None => inl NotRegistered
    | Some r =>
        if negb (String.eqb (owner r) owner') then inl Unauthorized
        else
          inr (<[agent := {| owner := owner r; scopes := scopes r;
                             max_amount := max_amount r; revoked := true |}]> reg)
    end.

(** Modelled from the spec: [is_authorized(agent, action, amount)] is true
    iff a record exists, it is not revoked, the action is in its scopes and
    the amount is within its cap. *)
Definition is_authorized (agent action : string) (amount : N)
  (reg : gmap string AgentRecord) : bool :=
  match reg !! agent with
  | None => false
  | Some r =>
      negb (revoked r) && bool_decide (action ∈ scopes r)
      && (amount <=? max_amount r)%N
  end.

(** Modelled from the spec: [get_agent_info(agent)], the record or its absence. *)
Definition get_agent_info (agent : string) (reg : gmap string AgentRecord)
  : option AgentRecord :=
  reg !! agent.

(** The state-changing operations of the registry, with their caller. *)
Inductive registry_op : Type :=
| RegisterAgent (caller owner' agent : string) (scopes' : gset string) (max_amount' : N)
| RevokeAgent (caller owner' agent : string).

(** An operation applies fully or aborts and leaves the registry as it was. *)
Definition apply_op (reg : gmap string AgentRecord) (op : registry_op)
  : gmap string AgentRecord :=
  match op with
  | RegisterAgent caller o a s m =>
      match register_agent caller o a s m reg with
      | inr reg' => reg'
      | inl _ => reg
      end
  | RevokeAgent caller o a =>
      match revoke_agent caller o a reg with
      | inr reg' => reg'
      | inl _ => reg
      end
  end.

Definition apply_ops (reg : gmap string AgentRecord) (ops : list registry_op)
  : gmap string AgentRecord :=
  fold_left apply_op ops reg.

(** The agent has a record and the record is revoked. *)
Definition is_revoked (agent : string) (reg : gmap string AgentRecord) : Prop :=
  exists r, reg !! agent = Some r /\ revoked r = true.

(** ** Example environments

    Small concrete worlds on which the functions above can be run.  A built
    transaction is labelled by the contract method it calls, the simulated
    return value is labelled likewise, and [simulate], [decode] and
    [prepare] give the answers of the network and of the library per method. *)

(** A number printer: integers in decimal, as JavaScript prints them. *)
Definition show_number (n : number) : string :=
  match n with
  | Fin q =>
      if (Z.pos (Qden q) =? 1)%Z then NilZero.string_of_int (Z.to_int (Qnum q))
      else NilZero.string_of_int (Z.to_int (Qnum q)) ++ "/"
           ++ NilZero.string_of_int (Z.to_int (Z.pos (Qden q)))
  | PosInf => "Infinity"
  | NegInf => "-Infinity"
  | NaN => "NaN"
  end.

Definition example_env (simulate : string -> outcome sim_response)
  (decode : string -> outcome native) (prepare : string -> outcome transaction)
  : Env :=
  {| readOnlyTx := fun _ _ method _ => Returns (mkTx method);
     simulateTransaction := fun _ tx => simulate (toXDR tx);
     scValToNative := fun sv => decode (scval_xdr sv);
     preparedTx := fun _ _ _ method _ => prepare method;
     sendTransaction := fun _ _ => Returns VUndefined;
     clock := fun _ => int 1700000000000;
     toString := show_number |}.

(** Every simulation succeeds and returns a value labelled by its method. *)
Definition simulate_ok (method : string) : outcome sim_response :=
  Returns (SimSuccess (Some (mkScVal method))).

(** Every transaction is built and prepared. *)
Definition prepare_ok (method : string) : outcome transaction :=
  Returns (mkTx ("unsigned:" ++ method)).

(** The source account does not exist on the network. *)
Definition prepare_unfunded (method : string) : outcome transaction :=
  Throws (Error "Account not found").

(** The contracts answer [is_authorized] with [auth] and [get_score] with
    [score]; nothing is known about the agent otherwise. *)
Definition decode_chain (auth : bool) (score : Z) (method : string)
  : outcome native :=
  if String.eqb method "is_authorized" then Returns (NValue (VBool auth))
  else if String.eqb method "get_score" then Returns (NBigInt score)
  else Returns (NValue VNull).

(** The RPC server cannot be reached. *)
Definition simulate_offline (method : string) : outcome sim_response :=
  Throws (Error "Network request failed").

(** The borrower of the usage example of lending-protocol.ts. *)
Definition example_borrower : string :=
  "GBJNTJ56V23KNAG4LBPKLQRVC4GSJ75ICBFQYNI4TQBHQNAYZK4SE7ON".

(** ** core/DACTP.ts: utility methods *)

(** [Math.floor(a)] *)
Definition Math_floor (a : number) : number :=
  match a with
  | Fin q => Fin (inject_Z (Qfloor q))
  | _ => a
  end.

(** [stroopsToXLM] and [xlmToStroops]; one XLM is 10,000,000 stroops. *)
Definition stroopsToXLM (stroops : number) : number :=
  num_div stroops (int 10000000).

Definition xlmToStroops (xlm : number) : number :=
  Math_floor (num_mul xlm (int 10000000)).

(** [formatAddress]: [address.slice(0, 4)], three dots, [address.slice(-4)];
    an empty or short address is returned as it is. *)
Definition formatAddress (address : string) : string :=
  if String.eqb address "" || Nat.ltb (String.length address) 8 then address
  else String.substring 0 4 address ++ "..."
       ++ String.substring (String.length address - 4) 4 address.

(** ** utils/stellar.ts: network table and client construction *)

Inductive Network : Type :=
| mainnet
| testnet
| futurenet
| standalone.

Record NetworkConfig : Type := mkNetworkConfig {
  rpcUrl : string;
  networkPassphrase : string;
  network_contracts : Contracts
}.

Definition NETWORK_CONFIGS (network : Network) : NetworkConfig :=
  match network with
  | mainnet =>
      {| rpcUrl := "https://soroban-rpc.mainnet.stellar.org";
         networkPassphrase := "Public Global Stellar Network ; September 2015";
         network_contracts :=
           {| agentManager := ""; reputationManager := ""; lendingDemo := "";
              xlmToken := "CAS3J7GYLGXMF6TDJBBYYSE3HQ6BBSMLNUQ36ASBEML7VHVHF5RKQWN" |} |}
  | testnet =>
      {| rpcUrl := "https://soroban-rpc.testnet.stellar.org";
         networkPassphrase := "Test SDF Network ; September 2015";
         network_contracts :=
           {| agentManager := ""; reputationManager := ""; lendingDemo := "";
              xlmToken := "CDLZFC3SYJYDZT7K67VZ75HPJVIEUVNIXF47ZG2FB2RMQQAHHAGCN4YU" |} |}
  | futurenet =>
      {| rpcUrl := "https://rpc-futurenet.stellar.org";
         networkPassphrase := "Test SDF Future Network ; October 2022";
         network_contracts := futurenet_contracts |}
  | standalone =>
      {| rpcUrl := "http://localhost:8000/soroban/rpc";
         networkPassphrase := "Standalone Network ; February 2017";
         network_contracts :=
           {| agentManager := ""; reputationManager := ""; lendingDemo := "";
              xlmToken := "" |} |}
  end.

(** The [contracts] field of a [DACTPConfig]: each address may be absent. *)
Record ContractOverrides : Type := mkContractOverrides {
  override_agentManager : option string;
  override_reputationManager : option string;
  override_lendingDemo : option string;
  override_xlmToken : option string
}.

(** [DACTPConfig]; the [wallet] field is not read by the client. *)
Record DACTPConfig : Type := mkDACTPConfig {
  config_network : option Network;
  config_rpcUrl : option string;
  config_networkPassphrase : option string;
  config_contracts : option ContractOverrides
}.

(** [config: DACTPConfig = {}] *)
Definition empty_config : DACTPConfig :=
  {| config_network := None; config_rpcUrl := None;
     config_networkPassphrase := None; config_contracts := None |}.

(** [StellarRpc.Server]: the object [new StellarRpc.Server(serverURL)]
    returns. *)
Record RpcServer : Type := mkRpcServer {
  serverURL : string
}.

(** The constructor of the Stellar library that [StellarClient] calls.  It
    belongs to the library, and it may throw: it is a parameter of the
    model. *)
Record RpcLib : Type := mkRpcLib {
  new_Server : string -> outcome RpcServer
}.

(** What the constructor of [StellarClient] stores. *)
Record StellarClient : Type := mkStellarClient {
  client_rpc : RpcServer;
  client_networkPassphrase : string;
  client_contracts : Contracts
}.

(** One field of [{ ...networkConfig.contracts, ...config.contracts }]. *)
Definition spread_field (base : string) (override : option string) : string :=
  match override with
  | Some s => s
  | None => base
  end.

(** [new StellarClient(config)].  The server is constructed first; when
    [new StellarRpc.Server] throws, so does the constructor. *)
Definition new_StellarClient (lib : RpcLib) (config : DACTPConfig)
  : outcome StellarClient :=
  let network := match config_network config with
                 | Some n => n
                 | None => futurenet
                 end in
  let networkConfig := NETWORK_CONFIGS network in
  let base := network_contracts networkConfig in
  match new_Server lib (string_or (config_rpcUrl config) (rpcUrl networkConfig)) with
  | Throws e => Throws e
  | Returns rpc =>
      Returns
        {| client_rpc := rpc;
           client_networkPassphrase :=
             string_or (config_networkPassphrase config)
               (networkPassphrase networkConfig);
           client_contracts :=
             match config_contracts config with
             | None => base
             | Some o =>
                 {| agentManager :=
                      spread_field (agentManager base) (override_agentManager o);
                    reputationManager :=
                      spread_field (reputationManager base)
                        (override_reputationManager o);
                    lendingDemo :=
                      spread_field (lendingDemo base) (override_lendingDemo o);
                    xlmToken := spread_field (xlmToken base) (override_xlmToken o) |}
             end |}
  end.

(** The networks an integration can be constructed on:
    ['mainnet' | 'testnet' | 'futurenet']. *)
Inductive IntegrationNetwork : Type :=
| integration_mainnet
| integration_testnet
| integration_futurenet.

Definition integration_network (network : IntegrationNetwork) : Network :=
  match network with
  | integration_mainnet => mainnet
  | integration_testnet => testnet
  | integration_futurenet => futurenet
  end.

(** [new StellarLendIntegration(network)] and [new StellarDEXIntegration(network)]
    build their client from [{ network }]; without an argument the network
    is futurenet. *)
Definition integration_client (lib : RpcLib) (network : IntegrationNetwork)
  : outcome StellarClient :=
  new_StellarClient lib
    {| config_network := Some (integration_network network); config_rpcUrl := None;
       config_networkPassphrase := None; config_contracts := None |}.

(** An example of the library's constructor: it keeps the URL of a server
    reached over https and refuses any other. *)
Definition example_rpc_lib : RpcLib :=
  {| new_Server := fun url =>
       if String.prefix "https://" url
       then Returns {| serverURL := url |}
       else Throws (Error "Cannot connect to insecure Soroban RPC server") |}.

(** ** utils/stellar.ts: [toScVal] *)

(** The conversions of the Stellar library that [toScVal] relies on:
    [Address.fromString(s).toScVal()], [nativeToScVal(v, { type })] on a
    native value, and [nativeToScVal(items, { type: "vec" })] on converted
    items. *)
Record ScValLib : Type := mkScValLib {
  Address_fromString : string -> outcome scval;
  nativeToScVal : value -> option string -> outcome scval;
  nativeToScVal_vec : list scval -> outcome scval
}.

(** [try { return f } catch (error) { throw new DACTPError(msg, VALIDATION_ERROR, error) }] *)
Definition or_validation_error (r : outcome scval) (msg : string) : outcome scval :=
  match r with
  | Returns sv => Returns sv
  | Throws error => Throws (DACTPError msg VALIDATION_ERROR (Some error))
  end.

(** The test that sends a string to [Address.fromString]. *)
Definition looks_like_address (c : string) (s : string) : bool :=
  String.prefix c s && Nat.eqb (String.length s) 56.

Section ToScVal.

Variable E : Env.
Variable L : ScValLib.

Fixpoint toScVal (v : value) (type : option string) {struct v} : outcome scval :=
  match v with
  | VUndefined =>
      Throws (DACTPError "Cannot convert undefined to ScVal" VALIDATION_ERROR None)
  | VNull =>
      Throws (DACTPError "Cannot convert null to ScVal" VALIDATION_ERROR None)
  | VString s =>
      if looks_like_address "G" s then
        or_validation_error (Address_fromString L s) ("Invalid Stellar address: " ++ s)
      else if looks_like_address "C" s then
        or_validation_error (Address_fromString L s) ("Invalid contract address: " ++ s)
      else
        or_validation_error (nativeToScVal L (VString s) (Some "symbol"))
          ("Failed to convert string " ++ s ++ " to ScVal")
  | VNumber n =>
      or_validation_error (nativeToScVal L (VNumber n) (Some (string_or type "u64")))
        ("Failed to convert number " ++ toString E n ++ " to ScVal")
  | VArray items =>
      let convertedArray :=
        (fix convert (l : list value) : outcome (list scval) :=
           match l with
           | [] => Returns []
           | x :: rest =>
               match toScVal x None with
               | Throws e => Throws e
               | Returns sx =>
                   match convert rest with
                   | Throws e => Throws e
                   | Returns srest => Returns (sx :: srest)
                   end
               end
           end) items in
      match convertedArray with
      | Throws error =>
          Throws (DACTPError "Failed to convert array to ScVal" VALIDATION_ERROR
                    (Some error))
      | Returns converted =>
          or_validation_error (nativeToScVal_vec L converted)
            "Failed to convert array to ScVal"
      end
  | VBool _ | VObject _ =>
      or_validation_error (nativeToScVal L v None) "Failed to convert value to ScVal"
  end.

End ToScVal.

(** ** Observations on read-only runs *)

(** An interaction that only reads: building and simulating a read-only call. *)
Definition is_read_only (ev : event) : bool :=
  match ev with
  | EvBuildReadOnly _ _ _ | EvSimulate _ => true
  | _ => false
  end.

(** The history [h'] extends [h] by read-only interactions. *)
Definition extends_read_only (h h' : list event) : Prop :=
  exists new : list event,
    h' = (h ++ new)%list /\ forallb is_read_only new = true.

(** A network on which every simulated call fails. *)
Definition offline (E : Env) : Prop :=
  forall (contractId method : string) (args : list value) (h : list event),
    simulation_fails E contractId method args h.

(** The code carried by a thrown value, when it is a [DACTPError]. *)
Definition error_code (e : js_error) : option ErrorCodes :=
  match e with
  | DACTPError _ code _ => Some code
  | Error _ => None
  end.

Definition error_details (e : js_error) : option js_error :=
  match e with
  | DACTPError _ _ details => details
  | Error _ => None
  end.

(** [t.tier], the number of a band. *)
Definition tier_number (t : ReputationTier) : number := tier t.

(** ** examples/dex-integration.ts: StellarDEXIntegration *)

(** [n] as a condition: zero and NaN are falsy. *)
Definition num_truthy (n : number) : bool :=
  match n with
  | Fin q => negb (Qeq_bool q 0)
  | NaN => false
  | _ => true
  end.

(** [a[i]] on an array literal: an element for an index that is a whole
    number within the array, [undefined] otherwise. *)
Definition array_get (a : list number) (i : number) : option number :=
  match i with
  | Fin q =>
      let r := Qred q in
      if (Z.pos (Qden r) =? 1) && (0 <=? Qnum r) then nth_error a (Z.to_nat (Qnum r))
      else None
  | _ => None
  end.

(** [x || d] on a possibly [undefined] number. *)
Definition num_or (x : option number) (d : number) : number :=
  match x with
  | Some n => if num_truthy n then n else d
  | None => d
  end.

Definition getSpotTradingLimit (tier : number) : number :=
  let limits := [int 0; int 100; int 500; int 2000; int 10000] in
  num_or (array_get limits tier) (int 0).

Definition getMarginTradingLimit (tier : number) : number :=
  let limits := [int 0; int 0; int 200; int 1000; int 5000] in
  num_or (array_get limits tier) (int 0).

Definition getAllowedLeverage (tier : number) : number :=
  let leverage := [int 1; int 1; int 2; int 5; int 10] in
  num_or (array_get leverage tier) (int 1).

(** [tradeType: 'spot' | 'margin'] *)
Inductive TradeType : Type :=
| spot
| margin.

(** The object returned by [canExecuteTrade]. *)
Record TradeCheck : Type := mkTradeCheck {
  canTrade : bool;
  trade_maxAllowed : option number;
  trade_reason : option string;
  leverageAllowed : option number
}.

(** The object returned by [executeTrade]. *)
Record TradeExecution : Type := mkTradeExecution {
  trade_success : bool;
  trade_tradeId : option string;
  trade_reputationDelta : option number
}.

(** The object returned by [simulateTradeExecution]. *)
Record TradeResult : Type := mkTradeResult {
  tradeId : string;
  profitable : bool;
  majorLoss : bool
}.

Record TraderProfile : Type := mkTraderProfile {
  trader_reputation : number;
  trader_tier : string;
  spotTradingLimit : number;
  marginTradingLimit : number;
  maxLeverage : number;
  canMarginTrade : bool
}.

Section DEX.

Variable E : Env.
Variable contracts : Contracts.

Definition canExecuteTrade (trader : string) (tradeAmount : number)
  (tradeType : TradeType) : M TradeCheck :=
  try_catch
    (reputation <- getScore E contracts trader ;;
     let tier := score_tier reputation in
     match tradeType with
     | spot =>
         (* Spot trading limits based on reputation tier *)
         let maxTradeAmount := getSpotTradingLimit (tier_number tier) in
         if num_gt tradeAmount maxTradeAmount then
           ret {| canTrade := false; trade_maxAllowed := Some maxTradeAmount;
                  trade_reason := Some ("Trade amount exceeds " ++ name tier
                                        ++ " tier limit");
                  leverageAllowed := None |}
         else
           ret {| canTrade := true; trade_maxAllowed := Some maxTradeAmount;
                  trade_reason := None; leverageAllowed := Some (int 1) |}
     | margin =>
         (* Margin trading requires higher reputation *)
         if num_lt (score reputation) (int 70) then
           ret {| canTrade := false; trade_maxAllowed := Some (int 0);
                  trade_reason :=
                    Some "Margin trading requires reputation score of 70+";
                  leverageAllowed := None |}
         else
           let maxTradeAmount := getMarginTradingLimit (tier_number tier) in
           let leverage := getAllowedLeverage (tier_number tier) in
           if num_gt tradeAmount maxTradeAmount then
             ret {| canTrade := false; trade_maxAllowed := Some maxTradeAmount;
                    trade_reason := Some ("Trade amount exceeds " ++ name tier
                                          ++ " tier limit");
                    leverageAllowed := None |}
           else
             ret {| canTrade := true; trade_maxAllowed := Some maxTradeAmount;
                    trade_reason := None; leverageAllowed := Some leverage |}
     end)
    (fun error =>
       ret {| canTrade := false; trade_maxAllowed := None;
              trade_reason := Some ("Trade check failed: " ++ error_message error);
              leverageAllowed := None |}).

(** [simulateTradeExecution]; [coin1] and [coin2] are the outcomes of
    [Math.random() > 0.4] and [Math.random() > 0.8], the second one being
    looked at only after a loss. *)
Definition simulateTradeExecution (coin1 coin2 : bool) (trader : string)
  (amount : number) (type : TradeType) (leverage : number) : M TradeResult :=
  let profitable := coin1 in
  let majorLoss := negb profitable && coin2 in
  now <- Date_now E ;;
  ret {| tradeId := "trade_" ++ toString E now; profitable := profitable;
         majorLoss := majorLoss |}.

Definition executeTrade (coin1 coin2 : bool) (trader : string)
  (tradeAmount : number) (tradeType : TradeType) (leverage : number)
  : M TradeExecution :=
  try_catch
    ((* Check if trade is allowed *)
     check <- canExecuteTrade trader tradeAmount tradeType ;;
     if negb (canTrade check) then
       ret {| trade_success := false; trade_tradeId := None;
              trade_reputationDelta := None |}
     else
       tradeResult <- simulateTradeExecution coin1 coin2 trader tradeAmount
                        tradeType leverage ;;
       (* Update reputation based on trade outcome *)
       let reputationDelta :=
         if profitable tradeResult then
           match tradeType with margin => int 3 | spot => int 2 end
         else if majorLoss tradeResult then int (-10) else int (-2) in
       _ <- updateReputation E contracts "DEX_PROTOCOL_ADDRESS" trader
              reputationDelta unsigned_only ;;
       ret {| trade_success := true; trade_tradeId := Some (tradeId tradeResult);
              trade_reputationDelta := Some reputationDelta |})
    (fun error =>
       ret {| trade_success := false; trade_tradeId := None;
              trade_reputationDelta := None |}).

Definition getTraderProfile (trader : string) : M TraderProfile :=
  reputation <- getScore E contracts trader ;;
  let tier := score_tier reputation in
  ret {| trader_reputation := score reputation;
         trader_tier := name tier;
         spotTradingLimit := getSpotTradingLimit (tier_number tier);
         marginTradingLimit := getMarginTradingLimit (tier_number tier);
         maxLeverage := getAllowedLeverage (tier_number tier);
         canMarginTrade := num_ge (score reputation) (int 70) |}.

(** [handleLiquidation]; the [console] calls are not modelled. *)
Definition handleLiquidation (trader : string) (liquidationAmount : number)
  : M unit :=
  try_catch
    ((* Heavy penalty for getting liquidated *)
     let penalty := if num_gt liquidationAmount (int 1000) then int (-15)
                    else int (-10) in
     _ <- updateReputation E contracts "DEX_PROTOCOL_ADDRESS" trader penalty
            unsigned_only ;;
     ret tt)
    (fun error => ret tt).

End DEX.

(** A computation that never throws and only reads: from every history it
    returns a value and extends the history by read-only interactions. *)
Definition read_only_total {A : Type} (m : M A) : Prop :=
  forall h : list event,
    exists (a : A) (h' : list event),
      m h = (Returns a, h') /\ extends_read_only h h'.

(** A network on which the score of every agent is 80 at the first
    simulated call and 40 afterwards. *)
Definition example_env_changing : Env :=
  {| readOnlyTx := fun _ _ method _ => Returns (mkTx method);
     simulateTransaction :=
       fun h _ => Returns (SimSuccess (Some (mkScVal (if Nat.ltb (List.length h) 2
                                                     then "first" else "later"))));
     scValToNative :=
       fun sv => if String.eqb (scval_xdr sv) "first" then Returns (NBigInt 80)
                 else Returns (NBigInt 40);
     preparedTx := fun _ _ _ method _ => prepare_ok method;
     sendTransaction := fun _ _ => Returns VUndefined;
     clock := fun _ => int 1700000000000;
     toString := show_number |}.


(** Every value thrown by [run] is a [DACTPError] with code CONTRACT_ERROR
    whose message is [label] followed by the message of the wrapped cause,
    the cause being a [DACTPError] with code WALLET_ERROR or CONTRACT_ERROR. *)
Definition wraps_as_contract_error (run : M TxResult) (label : string) : Prop :=
  forall (h h' : list event) (e : js_error),
    run h = (Throws e, h') ->
    error_code e = Some CONTRACT_ERROR
    /\ exists cause,
         error_details e = Some cause
         /\ error_message e = label ++ error_message cause
         /\ (error_code cause = Some WALLET_ERROR
             \/ error_code cause = Some CONTRACT_ERROR).

(** * Properties *)

(** ** Comparisons of integer-valued numbers *)

Lemma Qle_bool_inject_Z (a b : Z) :
  Qle_bool (inject_Z a) (inject_Z b) = (a <=? b).
Proof.
  unfold Qle_bool, inject_Z; simpl. now rewrite !Z.mul_1_r.
Qed.

Lemma num_add_int (a b : Z) : num_add (int a) (int b) = int (a + b).
Proof. unfold int; cbn [num_add]. now rewrite inject_Z_plus. Qed.

Lemma num_le_int (a b : Z) : num_le (int a) (int b) = (a <=? b).
Proof. apply Qle_bool_inject_Z. Qed.

Lemma in_band_int (z : Z) (t : ReputationTier) (lo hi : Z) :
  minScore t = int lo -> maxScore t = int hi ->
  in_band (int z) t = (lo <=? z) && (z <=? hi).
Proof.
  intros Hlo Hhi. unfold in_band, num_ge. now rewrite Hlo, Hhi, !num_le_int.
Qed.

(** The band test of a finite score against a band with integer bounds. *)
Lemma in_band_Fin (q : Q) (t : ReputationTier) (lo hi : Z) :
  minScore t = int lo -> maxScore t = int hi ->
  in_band (Fin q) t = Qle_bool (inject_Z lo) q && Qle_bool q (inject_Z hi).
Proof.
  intros Hlo Hhi. unfold in_band, num_ge. now rewrite Hlo, Hhi.
Qed.

(** [getTier] unfolded over the five bands, on an integer score. *)
Lemma getTier_int (z : Z) :
  getTier (int z) =
    if (0 <=? z) && (z <=? 49) then tier_no_credit
    else if (50 <=? z) && (z <=? 59) then tier_basic
    else if (60 <=? z) && (z <=? 74) then tier_good
    else if (75 <=? z) && (z <=? 89) then tier_excellent
    else if (90 <=? z) && (z <=? 100) then tier_elite
    else tier_no_credit.
Proof.
  unfold getTier, REPUTATION_TIERS; cbn [find nth].
  rewrite (in_band_int z tier_no_credit 0 49), (in_band_int z tier_basic 50 59),
    (in_band_int z tier_good 60 74), (in_band_int z tier_excellent 75 89),
    (in_band_int z tier_elite 90 100) by reflexivity.
  repeat match goal with |- context [if ?c then _ else _] => destruct c end;
    reflexivity.
Qed.

Lemma clamp_in_range (x : Z) : 0 <= clamp x 0 100 <= 100.
Proof.
  unfold clamp. destruct (x <? 0) eqn:H0; [lia |].
  apply Z.ltb_ge in H0. destruct (100 <? x) eqn:H1; [lia |].
  apply Z.ltb_ge in H1. lia.
Qed.

(** [predictNewScore] on integers, without any assumption on the score. *)
Lemma predictNewScore_int (s d : Z) (now : number) :
  score (predictNewScore (int s) (int d) now) = int (clamp (s + d) 0 100).
Proof.
  unfold predictNewScore, clamp; cbn [score]. rewrite num_add_int.
  unfold Math_min; cbn [int]. fold (int 100). fold (int (s + d)).
  rewrite num_le_int.
  destruct (100 <=? s + d) eqn:Hhi.
  - apply Z.leb_le in Hhi.
    replace (s + d <? 0) with false by (symmetry; apply Z.ltb_ge; lia).
    unfold Math_max; cbn [int]. fold (int 0). fold (int 100).
    rewrite num_le_int. cbn [Z.leb Z.compare].
    destruct (100 <? s + d) eqn:Hgt; [reflexivity |].
    apply Z.ltb_ge in Hgt. f_equal. f_equal. lia.
  - apply Z.leb_gt in Hhi.
    replace (100 <? s + d) with false by (symmetry; apply Z.ltb_ge; lia).
    unfold Math_max; cbn [int]. fold (int 0). fold (int (s + d)).
    rewrite num_le_int.
    destruct (0 <=? s + d) eqn:Hlo.
    + apply Z.leb_le in Hlo.
      now replace (s + d <? 0) with false by (symmetry; apply Z.ltb_ge; lia).
    + apply Z.leb_gt in Hlo.
      now replace (s + d <? 0) with true by (symmetry; apply Z.ltb_lt; lia).
Qed.

(** C1: for a current score in [0,100] and any integer delta, the score
    computed by [predictNewScore] is [clamp(currentScore + delta, 0, 100)],
    and it lies in the closed range [0,100]. *)
Theorem predictNewScore_clamped (s d : Z) (now : number) :
  0 <= s <= 100 ->
  let newScore := score (predictNewScore (int s) (int d) now) in
  newScore = int (clamp (s + d) 0 100)
  /\ num_le (int 0) newScore = true
  /\ num_le newScore (int 100) = true
  /\ 0 <= clamp (s + d) 0 100 <= 100.
Proof.
  intros _. cbn zeta.
  pose proof (clamp_in_range (s + d)) as Hrange.
  rewrite predictNewScore_int, !num_le_int.
  repeat split; try apply Z.leb_le; lia.
Qed.

Lemma predictNewScore_clamped_witness :
  (0 <= 65 <= 100) /\
  score (predictNewScore (int 65) (int 8) (int 0)) = int 73.
Proof.
  split; [lia |].
  exact (proj1 (predictNewScore_clamped 65 8 (int 0) ltac:(lia))).
Defined.

(** Scores stay in [0,100] along any sequence of integer deltas. *)
Lemma apply_deltas_in_range (now : number) (deltas : list Z) :
  forall s : Z,
    0 <= s <= 100 ->
    exists z, apply_deltas now (int s) (map int deltas) = int z /\ 0 <= z <= 100.
Proof.
  unfold apply_deltas.
  induction deltas as [| d deltas IH]; intros s Hs; cbn [map fold_left].
  - now exists s.
  - rewrite predictNewScore_int. apply IH. apply clamp_in_range.
Qed.

(** ** The tier table *)

Lemma in_REPUTATION_TIERS (t : ReputationTier) :
  In t REPUTATION_TIERS <->
  t = tier_no_credit \/ t = tier_basic \/ t = tier_good
  \/ t = tier_excellent \/ t = tier_elite.
Proof.
  unfold REPUTATION_TIERS; cbn [In]. intuition congruence.
Qed.

(** The bands on integers: membership is the interval test of the table. *)
Lemma in_band_table (z : Z) :
  in_band (int z) tier_no_credit = (0 <=? z) && (z <=? 49)
  /\ in_band (int z) tier_basic = (50 <=? z) && (z <=? 59)
  /\ in_band (int z) tier_good = (60 <=? z) && (z <=? 74)
  /\ in_band (int z) tier_excellent = (75 <=? z) && (z <=? 89)
  /\ in_band (int z) tier_elite = (90 <=? z) && (z <=? 100).
Proof.
  repeat split; apply in_band_int; reflexivity.
Qed.

Ltac Zbool :=
  repeat match goal with
    | H : (_ && _) = true |- _ => apply andb_true_iff in H; destruct H
    | H : (_ <=? _) = true |- _ => apply Z.leb_le in H
    | H : (_ <=? _) = false |- _ => apply Z.leb_gt in H
    | |- (_ && _) = true => apply andb_true_iff; split
    | |- (_ <=? _) = true => apply Z.leb_le
    end.

(** C2: every integer score in [0,100] lies in exactly one band of the
    table and [getTier] returns it; the bands and loan limits are 0-49 tier 0
    (No Credit, 0), 50-59 tier 1 (Basic, 0.5), 60-74 tier 2 (Good, 2),
    75-89 tier 3 (Excellent, 5), 90-100 tier 4 (Elite, 10); and
    [getMaxLoanAmount] returns the limit of the containing band. *)
Theorem getTier_bands (z : Z) :
  0 <= z <= 100 ->
  let t := getTier (int z) in
  In t REPUTATION_TIERS
  /\ in_band (int z) t = true
  /\ (forall t', In t' REPUTATION_TIERS -> in_band (int z) t' = true -> t' = t)
  /\ getMaxLoanAmount (int z) = maxLoanAmount t
  /\ (0 <= z <= 49 ->
      tier t = int 0 /\ name t = "No Credit" /\ getMaxLoanAmount (int z) = int 0)
  /\ (50 <= z <= 59 ->
      tier t = int 1 /\ name t = "Basic" /\ getMaxLoanAmount (int z) = Fin (1 # 2))
  /\ (60 <= z <= 74 ->
      tier t = int 2 /\ name t = "Good" /\ getMaxLoanAmount (int z) = int 2)
  /\ (75 <= z <= 89 ->
      tier t = int 3 /\ name t = "Excellent" /\ getMaxLoanAmount (int z) = int 5)
  /\ (90 <= z <= 100 ->
      tier t = int 4 /\ name t = "Elite" /\ getMaxLoanAmount (int z) = int 10).
Proof.
  intros Hz. cbn zeta. unfold getMaxLoanAmount.
  destruct (in_band_table z) as (B0 & B1 & B2 & B3 & B4).
  assert (Hcases :
    (0 <= z <= 49 /\ getTier (int z) = tier_no_credit)
    \/ (50 <= z <= 59 /\ getTier (int z) = tier_basic)
    \/ (60 <= z <= 74 /\ getTier (int z) = tier_good)
    \/ (75 <= z <= 89 /\ getTier (int z) = tier_excellent)
    \/ (90 <= z <= 100 /\ getTier (int z) = tier_elite)).
  { rewrite getTier_int.
    destruct ((0 <=? z) && (z <=? 49)) eqn:H0; [Zbool; left; split; [lia | reflexivity] |].
    destruct ((50 <=? z) && (z <=? 59)) eqn:H1;
      [Zbool; right; left; split; [lia | reflexivity] |].
    destruct ((60 <=? z) && (z <=? 74)) eqn:H2;
      [Zbool; right; right; left; split; [lia | reflexivity] |].
    destruct ((75 <=? z) && (z <=? 89)) eqn:H3;
      [Zbool; right; right; right; left; split; [lia | reflexivity] |].
    destruct ((90 <=? z) && (z <=? 100)) eqn:H4;
      [Zbool; right; right; right; right; split; [lia | reflexivity] |].
    apply andb_false_iff in H0, H1, H2, H3, H4.
    exfalso. destruct H0, H1, H2, H3, H4; Zbool; lia. }
  assert (Hunique : forall t', In t' REPUTATION_TIERS ->
            in_band (int z) t' = true -> t' = getTier (int z)).
  { intros t' Hin Hband. apply in_REPUTATION_TIERS in Hin.
    destruct Hin as [-> | [-> | [-> | [-> | ->]]]];
      [rewrite B0 in Hband | rewrite B1 in Hband | rewrite B2 in Hband
      | rewrite B3 in Hband | rewrite B4 in Hband];
      Zbool;
      destruct Hcases as [[? ->] | [[? ->] | [[? ->] | [[? ->] | [? ->]]]]];
      first [reflexivity | lia]. }
  destruct Hcases as [[Hr Ht] | [[Hr Ht] | [[Hr Ht] | [[Hr Ht] | [Hr Ht]]]]];
    rewrite Ht in *;
    (split; [apply in_REPUTATION_TIERS; tauto |]);
    (split; [first [rewrite B0 | rewrite B1 | rewrite B2 | rewrite B3 | rewrite B4];
             Zbool; lia |]);
    (split; [exact Hunique |]);
    (split; [reflexivity |]);
    repeat split; first [reflexivity | lia].
Qed.

Lemma getTier_bands_witness :
  (0 <= 73 <= 100) /\ name (getTier (int 73)) = "Good"
  /\ getMaxLoanAmount (int 73) = int 2.
Proof.
  split; [lia |].
  pose proof (getTier_bands 73 ltac:(lia)) as H. cbn zeta in H.
  destruct H as (_ & _ & _ & _ & _ & _ & H & _).
  destruct (H ltac:(lia)) as (_ & Hname & Hmax). split; assumption.
Defined.

(** [getTier] when the loop finds no band. *)
Lemma getTier_no_band (s : number) :
  (forall t, In t REPUTATION_TIERS -> in_band s t = false) ->
  getTier s = tier_no_credit.
Proof.
  intros Hnone. unfold getTier.
  destruct (find (in_band s) REPUTATION_TIERS) as [t |] eqn:Hfind; [| reflexivity].
  apply find_some in Hfind. destruct Hfind as [Hin Hband].
  rewrite (Hnone t Hin) in Hband. discriminate.
Qed.

Lemma Qle_bool_false (x y : Q) : (y < x)%Q -> Qle_bool x y = false.
Proof.
  intros Hlt. destruct (Qle_bool x y) eqn:Hle; [| reflexivity].
  apply Qle_bool_iff in Hle. exfalso. exact (Qlt_not_le _ _ Hlt Hle).
Qed.

Lemma between_bands_no_band (q : Q) :
  between_bands q ->
  forall t, In t REPUTATION_TIERS -> in_band (Fin q) t = false.
Proof.
  intros Hq t Hin. apply in_REPUTATION_TIERS in Hin.
  assert (Hlow : forall lo hi : Z,
             (q < inject_Z lo)%Q ->
             Qle_bool (inject_Z lo) q && Qle_bool q (inject_Z hi) = false).
  { intros lo hi H. now rewrite (Qle_bool_false _ _ H). }
  assert (Hhigh : forall lo hi : Z,
             (inject_Z hi < q)%Q ->
             Qle_bool (inject_Z lo) q && Qle_bool q (inject_Z hi) = false).
  { intros lo hi H. rewrite (Qle_bool_false _ _ H). apply andb_false_r. }
  assert (Hmono : forall a b : Z, a <= b -> (inject_Z a <= inject_Z b)%Q).
  { intros a b Hab. now rewrite <- Zle_Qle. }
  destruct Hin as [-> | [-> | [-> | [-> | ->]]]];
    [rewrite (in_band_Fin q tier_no_credit 0 49) by reflexivity
    | rewrite (in_band_Fin q tier_basic 50 59) by reflexivity
    | rewrite (in_band_Fin q tier_good 60 74) by reflexivity
    | rewrite (in_band_Fin q tier_excellent 75 89) by reflexivity
    | rewrite (in_band_Fin q tier_elite 90 100) by reflexivity];
    destruct Hq as [H | [H | [[H1 H2] | [[H1 H2] | [[H1 H2] | [H1 H2]]]]]];
    first
      [ apply Hlow;
        first [ exact H | exact H2
              | eapply Qlt_le_trans; [exact H | apply Hmono; lia]
              | eapply Qlt_le_trans; [exact H2 | apply Hmono; lia] ]
      | apply Hhigh;
        first [ exact H | exact H1
              | eapply Qle_lt_trans; [apply Hmono | exact H]; lia
              | eapply Qle_lt_trans; [apply Hmono | exact H1]; lia ] ].
Qed.

Lemma not_finite_no_band (s : number) :
  s = NaN \/ s = PosInf \/ s = NegInf ->
  forall t, In t REPUTATION_TIERS -> in_band s t = false.
Proof.
  intros Hs t Hin. apply in_REPUTATION_TIERS in Hin.
  destruct Hs as [-> | [-> | ->]];
    destruct Hin as [-> | [-> | [-> | [-> | ->]]]]; reflexivity.
Qed.

(** C9: [getTier] is defined on every number, and a score that no band
    contains (negative, above 100, strictly between two adjacent bands such
    as 49.5, an infinity or NaN) falls through to the first band, tier 0
    'No Credit', with max loan amount 0; in particular a score above 100 is
    not given the Elite tier. *)
Theorem getTier_outside_bands :
  (forall s : number,
      (forall t, In t REPUTATION_TIERS -> in_band s t = false) ->
      getTier s = tier_no_credit /\ tier (getTier s) = int 0
      /\ name (getTier s) = "No Credit" /\ getMaxLoanAmount s = int 0)
  /\ (forall q : Q,
         between_bands q ->
         getTier (Fin q) = tier_no_credit /\ getMaxLoanAmount (Fin q) = int 0)
  /\ (forall q : Q,
         (100 < q)%Q ->
         getTier (Fin q) = tier_no_credit /\ getTier (Fin q) <> tier_elite
         /\ getMaxLoanAmount (Fin q) = int 0)
  /\ getTier (Fin (99 # 2)) = tier_no_credit
  /\ getTier NaN = tier_no_credit
  /\ getTier PosInf = tier_no_credit
  /\ getTier NegInf = tier_no_credit.
Proof.
  assert (Hfall : forall s : number,
             (forall t, In t REPUTATION_TIERS -> in_band s t = false) ->
             getTier s = tier_no_credit /\ tier (getTier s) = int 0
             /\ name (getTier s) = "No Credit" /\ getMaxLoanAmount s = int 0).
  { intros s Hnone. unfold getMaxLoanAmount.
    rewrite (getTier_no_band s Hnone). repeat split. }
  split; [exact Hfall |].
  split.
  { intros q Hq. destruct (Hfall (Fin q) (between_bands_no_band q Hq)) as (H1 & _ & _ & H2).
    split; assumption. }
  split.
  { intros q Hq.
    assert (Hb : between_bands q) by (right; left; exact Hq).
    destruct (Hfall (Fin q) (between_bands_no_band q Hb)) as (H1 & _ & _ & H2).
    repeat split; try assumption. rewrite H1. discriminate. }
  repeat split; reflexivity.
Qed.

Lemma getTier_outside_bands_witness :
  (100 < 150)%Q /\ getTier (int 150) = tier_no_credit
  /\ getMaxLoanAmount (int 150) = int 0.
Proof.
  assert (H : (100 < 150)%Q) by reflexivity.
  split; [exact H |].
  destruct getTier_outside_bands as (_ & _ & Habove & _).
  destruct (Habove 150%Q H) as (Ht & _ & Hmax). split; assumption.
Defined.

(** ** Address validation *)

Lemma prefix_one_char (c : ascii) (s : string) :
  String.prefix (String c EmptyString) s = true <-> String.get 0 s = Some c.
Proof.
  destruct s as [| b s']; cbn [String.prefix String.get].
  - split; discriminate.
  - destruct (ascii_dec c b) as [-> | Hne].
    + split; [reflexivity |]. intros _. now destruct s'.
    + split; [discriminate |]. intros [= ->]. contradiction.
Qed.

(** C10: [isValidAgentAddress] accepts exactly the strings of length 56
    whose first character is 'G', and [isValidContractAddress] exactly the
    strings of length 56 whose first character is 'C'; nothing else about
    the string (alphabet, checksum) is looked at. *)
Theorem address_validation_syntactic (address : value) :
  (isValidAgentAddress address = true <->
     exists s, address = VString s /\ String.length s = 56%nat
               /\ String.get 0 s = Some "G"%char)
  /\ (isValidContractAddress address = true <->
        exists s, address = VString s /\ String.length s = 56%nat
                  /\ String.get 0 s = Some "C"%char).
Proof.
  split.
  - unfold isValidAgentAddress. split.
    + destruct address; try discriminate. intros H.
      apply andb_true_iff in H. destruct H as [Hp Hl].
      exists s. repeat split.
      * now apply Nat.eqb_eq.
      * now apply prefix_one_char.
    + intros (s & -> & Hl & Hg). apply andb_true_iff. split.
      * now apply prefix_one_char.
      * now apply Nat.eqb_eq.
  - unfold isValidContractAddress. split.
    + destruct address; try discriminate. intros H.
      apply andb_true_iff in H. destruct H as [Hp Hl].
      exists s. repeat split.
      * now apply Nat.eqb_eq.
      * now apply prefix_one_char.
    + intros (s & -> & Hl & Hg). apply andb_true_iff. split.
      * now apply prefix_one_char.
      * now apply Nat.eqb_eq.
Qed.

(** A string of 56 characters that starts with 'G' and is not in the
    base-32 alphabet of Stellar addresses is accepted all the same. *)
Lemma address_validation_syntactic_witness :
  let s := "G!!!!!!!!!!!!!!!!!!!!!!!!!!!!!!!!!!!!!!!!!!!!!!!!!!!!!!!" in
  isValidAgentAddress (VString s) = true.
Proof.
  cbn zeta.
  apply (proj1 (address_validation_syntactic _)).
  eexists. repeat split.
Defined.

(** ** The client: simulation and transaction building *)

Lemma simulateCall_run (E : Env) (contractId method : string)
  (args : list value) (h : list event) :
  simulateCall E contractId method args h =
    let h1 := (h ++ [EvBuildReadOnly contractId method args])%list in
    match readOnlyTx E h contractId method args with
    | Throws e =>
        (Throws (DACTPError "Contract simulation failed" CONTRACT_ERROR
                   (Some (DACTPError "Failed to build read-only transaction"
                            CONTRACT_ERROR (Some e)))), h1)
    | Returns tx =>
        let h2 := (h1 ++ [EvSimulate tx])%list in
        match simulateTransaction E h1 tx with
        | Throws e =>
            (Throws (DACTPError "Contract simulation failed" CONTRACT_ERROR (Some e)), h2)
        | Returns (SimError err) =>
            (Throws (DACTPError "Contract simulation failed" CONTRACT_ERROR
                       (Some (Error err))), h2)
        | Returns (SimSuccess retval) => (Returns (parseScVal E retval), h2)
        end
    end.
Proof.
  unfold simulateCall, buildReadOnlyTx, try_catch, bind, perform, throw, ret.
  destruct (readOnlyTx E h contractId method args) as [tx | e]; [| reflexivity].
  destruct (simulateTransaction E _ tx) as [[err | retval] | e]; reflexivity.
Qed.

Lemma buildContractTx_run (E : Env) (publicKey contractId method : string)
  (args : list value) (h : list event) :
  let h' := (h ++ [EvBuildContractTx publicKey contractId method args])%list in
  match preparedTx E h publicKey contractId method args with
  | Returns tx => buildContractTx E publicKey contractId method args h = (Returns tx, h')
  | Throws _ =>
      exists e, buildContractTx E publicKey contractId method args h = (Throws e, h')
                /\ is_DACTPError e = true
  end.
Proof.
  unfold buildContractTx, try_catch, perform, throw; cbn zeta.
  destruct (preparedTx E h publicKey contractId method args) as [tx | e];
    [reflexivity |].
  destruct (includes "Account not found" (error_message e));
    eexists; split; reflexivity.
Qed.

Lemma extends_refl (h : list event) : extends_without_submission h h.
Proof. exists []. split; [now rewrite app_nil_r | reflexivity]. Qed.

Lemma extends_one (h : list event) (ev : event) :
  is_submission ev = false -> extends_without_submission h (h ++ [ev])%list.
Proof.
  intros Hev. exists [ev]. split; [reflexivity |]. cbn [forallb].
  now rewrite Hev.
Qed.

Lemma extends_trans (h1 h2 h3 : list event) :
  extends_without_submission h1 h2 -> extends_without_submission h2 h3 ->
  extends_without_submission h1 h3.
Proof.
  intros (n1 & -> & H1) (n2 & -> & H2). exists (n1 ++ n2)%list. split.
  - now rewrite app_assoc.
  - rewrite forallb_app, H1, H2. reflexivity.
Qed.

Lemma simulateCall_extends (E : Env) (contractId method : string)
  (args : list value) (h : list event) :
  extends_without_submission h (snd (simulateCall E contractId method args h)).
Proof.
  rewrite simulateCall_run; cbn zeta.
  destruct (readOnlyTx E h contractId method args) as [tx | e].
  - destruct (simulateTransaction E _ tx) as [[err | retval] | e]; cbn [snd];
      (eapply extends_trans; [apply extends_one | apply extends_one]; reflexivity).
  - cbn [snd]. now apply extends_one.
Qed.

(** ** The queries of the managers *)

Lemma isAuthorized_run (E : Env) (c : Contracts) (check : AuthorizationCheck)
  (h : list event) :
  isAuthorized E c check h =
    match simulateCall E (agentManager c) "is_authorized"
            [VString (check_agent check); VString (check_action check);
             VNumber (check_amount check)] h with
    | (Returns result, h') =>
        (Returns {| authorized := is_truthy result;
                    auth_reason := if is_truthy result then None
                                   else Some "Agent not authorized or amount exceeds limit" |},
         h')
    | (Throws error, h') =>
        (Returns {| authorized := false;
                    auth_reason := Some ("Authorization check failed: "
                                         ++ error_message error) |}, h')
    end.
Proof.
  unfold isAuthorized, try_catch, bind, ret.
  destruct (simulateCall E _ _ _ h) as [[v | e] h']; reflexivity.
Qed.

Lemma getScore_run (E : Env) (c : Contracts) (agentAddress : string)
  (h : list event) :
  getScore E c agentAddress h =
    match simulateCall E (reputationManager c) "get_score"
            [VString agentAddress] h with
    | (Returns v, h') =>
        (Returns {| score := number_or v (int 50);
                    score_tier := getTier (number_or v (int 50));
                    lastUpdated := clock E h' |}, h')
    | (Throws _, h') =>
        (Returns {| score := int 50; score_tier := getTier (int 50);
                    lastUpdated := clock E h' |}, h')
    end.
Proof.
  unfold getScore, try_catch, bind, ret, Date_now.
  destruct (simulateCall E _ _ _ h) as [[v | e] h']; reflexivity.
Qed.

Lemma getInfo_run (E : Env) (c : Contracts) (agentAddress : string)
  (h : list event) :
  getInfo E c agentAddress h =
    match simulateCall E (agentManager c) "get_agent_info"
            [VString agentAddress] h with
    | (Returns v, h') => (Returns v, h')
    | (Throws _, h') => (Returns VNull, h')
    end.
Proof.
  unfold getInfo, try_catch, ret.
  destruct (simulateCall E _ _ _ h) as [[v | e] h']; reflexivity.
Qed.

(** What makes a simulated call throw: the transaction cannot be built, the
    RPC call throws, or the response carries an error. *)
Lemma simulation_fails_iff (E : Env) (contractId method : string)
  (args : list value) (h : list event) :
  simulation_fails E contractId method args h <->
  (exists e, readOnlyTx E h contractId method args = Throws e)
  \/ (exists tx, readOnlyTx E h contractId method args = Returns tx
        /\ let h1 := (h ++ [EvBuildReadOnly contractId method args])%list in
           (exists e, simulateTransaction E h1 tx = Throws e)
           \/ (exists err, simulateTransaction E h1 tx = Returns (SimError err))).
Proof.
  unfold simulation_fails. rewrite simulateCall_run; cbn zeta.
  destruct (readOnlyTx E h contractId method args) as [tx | e].
  - destruct (simulateTransaction E _ tx) as [[err | retval] | e] eqn:Hsim.
    + split; [| eauto]. intros _. right. exists tx. split; [reflexivity |].
      right. eauto.
    + split.
      * intros (e & h' & [=]).
      * intros [[e [=]] | (tx' & [= <-] & [[e He] | [err He]])];
          rewrite Hsim in He; discriminate.
    + split; [| eauto]. intros _. right. exists tx. split; [reflexivity |].
      left. eauto.
  - split; eauto.
Qed.

(** A call whose simulation succeeds without a return value yields [null]. *)
Lemma simulation_without_value (E : Env) (contractId method : string)
  (args : list value) (h : list event) (tx : transaction) :
  readOnlyTx E h contractId method args = Returns tx ->
  simulateTransaction E (h ++ [EvBuildReadOnly contractId method args])%list tx
    = Returns (SimSuccess None) ->
  simulation_returns E contractId method args h VNull.
Proof.
  intros Hb Hs. unfold simulation_returns. rewrite simulateCall_run; cbn zeta.
  rewrite Hb, Hs. eauto.
Qed.

(** C6: the read-only queries of the SDK never throw, whatever their input
    and whatever the network does.  On an underlying error (the transaction
    cannot be built, the RPC call throws, or the response carries an error)
    and when the call returns no data, [isAuthorized] yields
    [authorized: false], [getScore] yields score 50 and [getInfo] yields
    [null]; [getScore] also yields 50 for every result that is not a
    number. *)
Theorem read_only_queries_never_throw (E : Env) (c : Contracts) (h : list event) :
  (forall check : AuthorizationCheck,
      let args := [VString (check_agent check); VString (check_action check);
                   VNumber (check_amount check)] in
      exists r h',
        isAuthorized E c check h = (Returns r, h')
        /\ (simulation_fails E (agentManager c) "is_authorized" args h ->
            authorized r = false)
        /\ (simulation_returns E (agentManager c) "is_authorized" args h VNull ->
            authorized r = false))
  /\ (forall agent : string,
         exists r h',
           getScore E c agent h = (Returns r, h')
           /\ (simulation_fails E (reputationManager c) "get_score" [VString agent] h ->
               score r = int 50)
           /\ (forall v,
                  simulation_returns E (reputationManager c) "get_score"
                    [VString agent] h v ->
                  (forall n, v <> VNumber n) -> score r = int 50))
  /\ (forall agent : string,
         exists v h',
           getInfo E c agent h = (Returns v, h')
           /\ (simulation_fails E (agentManager c) "get_agent_info" [VString agent] h ->
               v = VNull)
           /\ (simulation_returns E (agentManager c) "get_agent_info"
                 [VString agent] h VNull -> v = VNull))
  /\ (forall (contractId method : string) (args : list value),
         (exists e, readOnlyTx E h contractId method args = Throws e)
         \/ (exists tx, readOnlyTx E h contractId method args = Returns tx
               /\ let h1 := (h ++ [EvBuildReadOnly contractId method args])%list in
                  (exists e, simulateTransaction E h1 tx = Throws e)
                  \/ (exists err, simulateTransaction E h1 tx = Returns (SimError err))) ->
         simulation_fails E contractId method args h)
  /\ (forall (contractId method : string) (args : list value) (tx : transaction),
         readOnlyTx E h contractId method args = Returns tx ->
         simulateTransaction E (h ++ [EvBuildReadOnly contractId method args])%list tx
           = Returns (SimSuccess None) ->
         simulation_returns E contractId method args h VNull).
Proof.
  split; [| split; [| split; [| split]]];
    [| | | intros contractId method args; apply simulation_fails_iff
         | intros contractId method args tx; apply simulation_without_value ];
    unfold simulation_fails, simulation_returns.
  - intros check. cbn zeta. rewrite isAuthorized_run.
    destruct (simulateCall E _ _ _ h) as [[v | e] h1]; eexists; eexists;
      (split; [reflexivity |]); cbn [authorized]; split.
    + intros (e & h' & [=]).
    + intros (h' & [= -> _]). reflexivity.
    + reflexivity.
    + reflexivity.
  - intros agent. rewrite getScore_run.
    destruct (simulateCall E _ _ _ h) as [[v | e] h1]; eexists; eexists;
      (split; [reflexivity |]); cbn [score]; split.
    + intros (e & h' & [=]).
    + intros v' (h' & [= <- _]) Hnot. destruct v; try reflexivity.
      now destruct (Hnot n).
    + reflexivity.
    + reflexivity.
  - intros agent. rewrite getInfo_run.
    destruct (simulateCall E _ _ _ h) as [[v | e] h1]; eexists; eexists;
      (split; [reflexivity |]); split.
    + intros (e & h' & [=]).
    + intros (h' & [= -> _]). reflexivity.
    + reflexivity.
    + reflexivity.
Qed.

(** With the RPC server out of reach, the three queries answer with the
    defaults. *)
Lemma read_only_queries_never_throw_witness :
  let E := example_env simulate_offline (decode_chain true 80) prepare_ok in
  let c := futurenet_contracts in
  simulation_fails E (reputationManager c) "get_score" [VString example_borrower] []
  /\ exists r h', getScore E c example_borrower [] = (Returns r, h')
                  /\ score r = int 50.
Proof.
  cbn zeta.
  assert (Hfail : simulation_fails
                    (example_env simulate_offline (decode_chain true 80) prepare_ok)
                    (reputationManager futurenet_contracts) "get_score"
                    [VString example_borrower] []).
  { eexists; eexists; reflexivity. }
  split; [exact Hfail |].
  destruct (read_only_queries_never_throw
              (example_env simulate_offline (decode_chain true 80) prepare_ok)
              futurenet_contracts []) as (_ & Hscore & _).
  destruct (Hscore example_borrower) as (r & h' & Hrun & Hdef & _).
  exists r, h'. split; [exact Hrun | exact (Hdef Hfail)].
Defined.

(** [parseScVal] itself does not throw either: a missing value is [null],
    and the [catch] around [scValToNative] answers 0. *)
Lemma parseScVal_total (E : Env) :
  parseScVal E None = VNull
  /\ (forall sv e, scValToNative E sv = Throws e ->
                   parseScVal E (Some sv) = VNumber (int 0)).
Proof.
  split; [reflexivity |].
  intros sv e He. cbn [parseScVal]. now rewrite He.
Qed.

(** ** The state-changing methods *)

Lemma signAndSend_is_false_iff (options : TxOptions) :
  signAndSend_is_false options = true <-> signAndSend options = Some false.
Proof.
  unfold signAndSend_is_false.
  destruct (signAndSend options) as [[|] |]; split; congruence.
Qed.

Ltac unsigned_only_method :=
  intros options h; unfold try_catch, bind, ret, throw;
  pose proof (signAndSend_is_false_iff options) as Hflag;
  destruct (signAndSend_is_false options);
  [ assert (Hfalse : signAndSend options = Some false) by now apply Hflag
  | assert (Htrue : signAndSend options <> Some false)
      by (intros Hc; apply Hflag in Hc; discriminate) ];
  match goal with
  | |- context [buildContractTx ?E ?pk ?cid ?m ?args h] =>
      pose proof (buildContractTx_run E pk cid m args h) as Hbuild;
      cbn zeta in Hbuild |- *;
      destruct (preparedTx E h pk cid m args) as [tx | e0];
      [ rewrite Hbuild | destruct Hbuild as (e1 & Hbuild & _); rewrite Hbuild ];
      (split; [intros Hc; contradiction |]);
      (split; [intros _; first [reflexivity | eexists; split; reflexivity] |]);
      cbn [snd]; now apply extends_one
  | |- _ =>
      split; [intros _; eexists; split; reflexivity |];
      split; [intros Hc; contradiction |];
      cbn [snd]; apply extends_refl
  end.

Lemma register_builds_unsigned_only (E : Env) (c : Contracts)
  (params : RegisterAgentParams) :
  builds_unsigned_only E (register E c params)
    (reg_owner params) (agentManager c) "register_agent"
    [VString (reg_owner params); VString (reg_agent params);
     VArray (map VString (reg_scopes params)); VNumber (reg_maxAmount params)].
Proof. unfold builds_unsigned_only, register. unsigned_only_method. Qed.

Lemma revoke_builds_unsigned_only (E : Env) (c : Contracts)
  (params : RevokeAgentParams) :
  builds_unsigned_only E (revoke E c params)
    (rev_owner params) (agentManager c) "revoke_agent"
    [VString (rev_owner params); VString (rev_agent params)].
Proof. unfold builds_unsigned_only, revoke. unsigned_only_method. Qed.

Lemma updateScore_builds_unsigned_only (E : Env) (c : Contracts)
  (params : UpdateScoreParams) :
  builds_unsigned_only E (updateScore E c params)
    (upd_caller params) (reputationManager c) "update_score"
    [VString (upd_caller params); VString (upd_agent params);
     VNumber (upd_delta params)].
Proof. unfold builds_unsigned_only, updateScore. unsigned_only_method. Qed.

(** C8, amended: [register], [revoke] and [updateScore] throw a
    [DACTPError] without any interaction unless [signAndSend] is explicitly
    [false]; with [signAndSend: false] they build the unsigned transaction
    and return [{success: true}] with its XDR in [hash], or throw a
    [DACTPError] when the transaction cannot be built; in no case is a
    transaction submitted. *)
Theorem mutating_methods_build_unsigned_only (E : Env) (c : Contracts) :
  (forall params : RegisterAgentParams,
      builds_unsigned_only E (register E c params)
        (reg_owner params) (agentManager c) "register_agent"
        [VString (reg_owner params); VString (reg_agent params);
         VArray (map VString (reg_scopes params)); VNumber (reg_maxAmount params)])
  /\ (forall params : RevokeAgentParams,
         builds_unsigned_only E (revoke E c params)
           (rev_owner params) (agentManager c) "revoke_agent"
           [VString (rev_owner params); VString (rev_agent params)])
  /\ (forall params : UpdateScoreParams,
         builds_unsigned_only E (updateScore E c params)
           (upd_caller params) (reputationManager c) "update_score"
           [VString (upd_caller params); VString (upd_agent params);
            VNumber (upd_delta params)]).
Proof.
  split; [| split]; intros params.
  - apply register_builds_unsigned_only.
  - apply revoke_builds_unsigned_only.
  - apply updateScore_builds_unsigned_only.
Qed.

(** On a network where the transaction is built, a registration with
    [signAndSend: false] returns its XDR and leaves one interaction, the
    build. *)
Lemma mutating_methods_build_unsigned_only_witness :
  let E := example_env simulate_ok (decode_chain true 80) prepare_ok in
  let params := {| reg_owner := "GOWNER"; reg_agent := example_borrower;
                   reg_scopes := ["borrow"; "repay"]; reg_maxAmount := int 1000 |} in
  signAndSend unsigned_only = Some false
  /\ fst (register E futurenet_contracts params unsigned_only [])
     = Returns {| hash := "unsigned:register_agent"; success := true |}.
Proof.
  cbn zeta. split; [reflexivity |].
  destruct (mutating_methods_build_unsigned_only
              (example_env simulate_ok (decode_chain true 80) prepare_ok)
              futurenet_contracts) as (Hreg & _ & _).
  destruct (Hreg {| reg_owner := "GOWNER"; reg_agent := example_borrower;
                    reg_scopes := ["borrow"; "repay"]; reg_maxAmount := int 1000 |}
              unsigned_only []) as (_ & Hbuild & _).
  exact (f_equal fst (Hbuild eq_refl)).
Defined.

(** C8 as stated fails: with [signAndSend: false] and a source account the
    network does not know, [register] does not return [{success: true}]: it
    throws. *)
Lemma register_unsigned_may_throw :
  let E := example_env simulate_ok (decode_chain true 80) prepare_unfunded in
  let params := {| reg_owner := "GOWNER"; reg_agent := example_borrower;
                   reg_scopes := ["borrow"; "repay"]; reg_maxAmount := int 1000 |} in
  signAndSend unsigned_only = Some false
  /\ fst (register E futurenet_contracts params unsigned_only [])
     = Throws
         (DACTPError
            "Agent registration failed: Account not found: GOWNER. Fund this account first."
            CONTRACT_ERROR
            (Some (DACTPError "Account not found: GOWNER. Fund this account first."
                     WALLET_ERROR (Some (Error "Account not found"))))).
Proof.
  cbn zeta. split; reflexivity.
Qed.

(** ** The lending integration *)

Lemma score_updates_app (c : Contracts) (h h' : list event) :
  score_updates c (h ++ h')%list = (score_updates c h ++ score_updates c h')%list.
Proof.
  induction h as [| ev h IH]; [reflexivity |].
  cbn [app score_updates]. rewrite IH.
  now destruct (score_update_of c ev).
Qed.

Lemma score_updates_update_score (c : Contracts) (caller agent : string)
  (delta : number) :
  score_updates c
    [EvBuildContractTx caller (reputationManager c) "update_score"
       [VString caller; VString agent; VNumber delta]]
  = [(agent, delta)].
Proof.
  cbn [score_updates score_update_of]. now rewrite String.eqb_refl.
Qed.

(** [updateReputation] with [{ signAndSend: false }], as the lending
    integration calls it. *)
Lemma updateReputation_unsigned (E : Env) (c : Contracts) (caller agent : string)
  (delta : number) (h : list event) :
  let args := [VString caller; VString agent; VNumber delta] in
  let h' := (h ++ [EvBuildContractTx caller (reputationManager c) "update_score" args])%list in
  match preparedTx E h caller (reputationManager c) "update_score" args with
  | Returns tx =>
      updateReputation E c caller agent delta unsigned_only h
      = (Returns {| hash := toXDR tx; success := true |}, h')
  | Throws _ =>
      exists e, updateReputation E c caller agent delta unsigned_only h = (Throws e, h')
  end.
Proof.
  cbn zeta. unfold updateReputation.
  destruct (updateScore_builds_unsigned_only E c
              {| upd_caller := caller; upd_agent := agent; upd_delta := delta |}
              unsigned_only h) as (_ & Hbuild & _).
  specialize (Hbuild eq_refl). cbn [upd_caller upd_agent upd_delta] in Hbuild.
  cbn zeta in Hbuild.
  destruct (preparedTx E h caller (reputationManager c) "update_score" _) as [tx | e0].
  - exact Hbuild.
  - destruct Hbuild as (e & Hrun & _). now exists e.
Qed.

Lemma processLoanRepayment_run (E : Env) (c : Contracts) (borrower loanId : string)
  (isEarlyPayment isLatePayment : bool) (h : list event) :
  let delta := if isEarlyPayment then int 12
               else if isLatePayment then int (-5) else int 8 in
  let args := [VString "LENDING_PROTOCOL_ADDRESS"; VString borrower; VNumber delta] in
  processLoanRepayment E c borrower loanId isEarlyPayment isLatePayment h =
    (match preparedTx E h "LENDING_PROTOCOL_ADDRESS" (reputationManager c)
             "update_score" args with
     | Returns _ => Returns {| repayment_success := true; reputationDelta := delta |}
     | Throws _ => Returns {| repayment_success := false; reputationDelta := int 0 |}
     end,
     (h ++ [EvBuildContractTx "LENDING_PROTOCOL_ADDRESS" (reputationManager c)
              "update_score" args])%list).
Proof.
  cbn zeta. unfold processLoanRepayment, try_catch, bind, ret.
  pose proof (updateReputation_unsigned E c "LENDING_PROTOCOL_ADDRESS" borrower
                (if isEarlyPayment then int 12
                 else if isLatePayment then int (-5) else int 8) h) as Hupd.
  cbn zeta in Hupd.
  destruct (preparedTx E h "LENDING_PROTOCOL_ADDRESS" (reputationManager c)
              "update_score" _) as [tx | e0].
  - now rewrite Hupd.
  - destruct Hupd as (e & ->). reflexivity.
Qed.

Lemma processLoanDefault_run (E : Env) (c : Contracts) (borrower loanId : string)
  (h : list event) :
  processLoanDefault E c borrower loanId h =
    (Returns tt,
     (h ++ [EvBuildContractTx "LENDING_PROTOCOL_ADDRESS" (reputationManager c)
              "update_score"
              [VString "LENDING_PROTOCOL_ADDRESS"; VString borrower;
               VNumber (int (-25))]])%list).
Proof.
  unfold processLoanDefault, try_catch, bind, ret.
  pose proof (updateReputation_unsigned E c "LENDING_PROTOCOL_ADDRESS" borrower
                (int (-25)) h) as Hupd.
  cbn zeta in Hupd.
  destruct (preparedTx E h "LENDING_PROTOCOL_ADDRESS" (reputationManager c)
              "update_score" _) as [tx | e0].
  - now rewrite Hupd.
  - destruct Hupd as (e & ->). reflexivity.
Qed.

(** C4: the delta chosen by [processLoanRepayment] is 12 when
    [isEarlyPayment], -5 when [isLatePayment] (and not early) and 8
    otherwise, the entries EARLY_PAYMENT, LATE_PAYMENT and ON_TIME_PAYMENT of
    [REPUTATION_DELTAS]; with the flags set from the repayment instant, a
    repayment at or before 12 hours ahead of the due date gives +12, a later
    one up to the due date +8, and one after the due date within the grace
    period -5.  The chosen delta is the one of the [update_score] call that
    is built, and the one returned when that call could be built. *)
Theorem processLoanRepayment_deltas (E : Env) (c : Contracts)
  (borrower loanId : string) (h : list event) :
  (forall isEarlyPayment isLatePayment : bool,
      let run := processLoanRepayment E c borrower loanId
                   isEarlyPayment isLatePayment h in
      exists delta,
        score_updates c (snd run) = (score_updates c h ++ [(borrower, delta)])%list
        /\ (fst run = Returns {| repayment_success := true; reputationDelta := delta |}
            \/ fst run = Returns {| repayment_success := false;
                                    reputationDelta := int 0 |})
        /\ (isEarlyPayment = true ->
            delta = int 12 /\ delta = REPUTATION_DELTAS EARLY_PAYMENT)
        /\ (isEarlyPayment = false -> isLatePayment = true ->
            delta = int (-5) /\ delta = REPUTATION_DELTAS LATE_PAYMENT)
        /\ (isEarlyPayment = false -> isLatePayment = false ->
            delta = int 8 /\ delta = REPUTATION_DELTAS ON_TIME_PAYMENT))
  /\ (forall now due_at grace : Z,
         let run := processLoanRepayment E c borrower loanId
                      (isEarlyPayment_at now due_at)
                      (isLatePayment_at now due_at grace) h in
         exists delta,
           score_updates c (snd run) = (score_updates c h ++ [(borrower, delta)])%list
           /\ (now <= due_at - twelve_hours -> delta = int 12)
           /\ (due_at - twelve_hours < now <= due_at -> delta = int 8)
           /\ (due_at < now <= due_at + grace -> delta = int (-5))).
Proof.
  assert (Hflags : forall isEarlyPayment isLatePayment : bool,
    let run := processLoanRepayment E c borrower loanId
                 isEarlyPayment isLatePayment h in
    let delta := if isEarlyPayment then int 12
                 else if isLatePayment then int (-5) else int 8 in
    score_updates c (snd run) = (score_updates c h ++ [(borrower, delta)])%list
    /\ (fst run = Returns {| repayment_success := true; reputationDelta := delta |}
        \/ fst run = Returns {| repayment_success := false;
                                reputationDelta := int 0 |})).
  { intros early late. cbn zeta. rewrite processLoanRepayment_run; cbn zeta.
    cbn [fst snd]. rewrite score_updates_app, score_updates_update_score.
    split; [reflexivity |].
    destruct (preparedTx E h _ _ _ _); [left | right]; reflexivity. }
  split.
  - intros early late. cbn zeta. destruct (Hflags early late) as [Hupd Hres].
    cbn zeta in Hupd, Hres. eexists. split; [exact Hupd |]. split; [exact Hres |].
    destruct early, late; repeat split; intros; first [reflexivity | discriminate].
  - intros now due_at grace. cbn zeta.
    destruct (Hflags (isEarlyPayment_at now due_at)
                (isLatePayment_at now due_at grace)) as [Hupd _].
    cbn zeta in Hupd. eexists. split; [exact Hupd |].
    unfold isEarlyPayment_at, isLatePayment_at.
    repeat split; intros Hrange.
    + replace (now <=? due_at - twelve_hours) with true
        by (symmetry; apply Z.leb_le; lia). reflexivity.
    + replace (now <=? due_at - twelve_hours) with false
        by (symmetry; apply Z.leb_gt; lia).
      replace (due_at <? now) with false by (symmetry; apply Z.ltb_ge; lia).
      reflexivity.
    + assert (0 < twelve_hours) by reflexivity.
      replace (now <=? due_at - twelve_hours) with false
        by (symmetry; apply Z.leb_gt; lia).
      replace (due_at <? now) with true by (symmetry; apply Z.ltb_lt; lia).
      replace (now <=? due_at + grace) with true by (symmetry; apply Z.leb_le; lia).
      reflexivity.
Qed.

(** A loan due at second 100000 with a day of grace, repaid at the due
    instant: on time, +8. *)
Lemma processLoanRepayment_deltas_witness :
  let E := example_env simulate_ok (decode_chain true 65) prepare_ok in
  let run := processLoanRepayment E futurenet_contracts example_borrower "loan-1"
               (isEarlyPayment_at 100000 100000)
               (isLatePayment_at 100000 100000 86400) [] in
  (100000 - twelve_hours < 100000 <= 100000)
  /\ exists delta,
       score_updates futurenet_contracts (snd run) = [(example_borrower, delta)]
       /\ delta = int 8.
Proof.
  cbn zeta.
  assert (Hr : 100000 - twelve_hours < 100000 <= 100000) by (unfold twelve_hours; lia).
  split; [exact Hr |].
  destruct (processLoanRepayment_deltas
              (example_env simulate_ok (decode_chain true 65) prepare_ok)
              futurenet_contracts example_borrower "loan-1" []) as [_ Htiming].
  destruct (Htiming 100000 100000 86400) as (delta & Hupd & _ & Hon & _).
  exists delta. split; [exact Hupd | exact (Hon Hr)].
Defined.

(** C5, amended: [processLoanDefault] keeps no record of the loan and has
    no guard against repetition.  Every application returns normally, never
    with an error such as PenaltyAlreadyApplied, and asks once for an
    unsigned [update_score] transaction with delta -25 for the borrower,
    whether or not that transaction can be built; applied twice to the same
    loan it asks for it twice.  Nothing is submitted. *)
Theorem processLoanDefault_repeats (E : Env) (c : Contracts)
  (borrower loanId : string) (h : list event) :
  let request :=
    EvBuildContractTx "LENDING_PROTOCOL_ADDRESS" (reputationManager c) "update_score"
      [VString "LENDING_PROTOCOL_ADDRESS"; VString borrower; VNumber (int (-25))] in
  let first := processLoanDefault E c borrower loanId h in
  let second := processLoanDefault E c borrower loanId (snd first) in
  first = (Returns tt, (h ++ [request])%list)
  /\ second = (Returns tt, (h ++ [request; request])%list)
  /\ score_updates c (snd first)
     = (score_updates c h ++ [(borrower, int (-25))])%list
  /\ score_updates c (snd second)
     = (score_updates c h ++ [(borrower, int (-25)); (borrower, int (-25))])%list
  /\ extends_without_submission h (snd second).
Proof.
  cbn zeta. rewrite !processLoanDefault_run. cbn [fst snd].
  split; [reflexivity |].
  split; [now rewrite <- app_assoc |].
  rewrite !score_updates_app, !score_updates_update_score, <- app_assoc.
  repeat split.
  eapply extends_trans; apply extends_one; reflexivity.
Qed.

(** C5 as stated fails.  The protocol's placeholder address is no account
    of the network, so no transaction is built; the second application to
    the same loan still returns normally, like the first one, and asks for
    the -25 update a second time. *)
Lemma processLoanDefault_not_idempotent :
  let E := example_env simulate_ok (decode_chain true 100) prepare_unfunded in
  let c := futurenet_contracts in
  let args := [VString "LENDING_PROTOCOL_ADDRESS"; VString example_borrower;
               VNumber (int (-25))] in
  let request :=
    EvBuildContractTx "LENDING_PROTOCOL_ADDRESS" (reputationManager c)
      "update_score" args in
  let first := processLoanDefault E c example_borrower "loan-1" [] in
  let second := processLoanDefault E c example_borrower "loan-1" (snd first) in
  preparedTx E [] "LENDING_PROTOCOL_ADDRESS" (reputationManager c) "update_score" args
  = Throws (Error "Account not found")
  /\ preparedTx E (snd first) "LENDING_PROTOCOL_ADDRESS" (reputationManager c)
       "update_score" args
     = Throws (Error "Account not found")
  /\ first = (Returns tt, [request])
  /\ second = (Returns tt, [request; request]).
Proof.
  cbn zeta. repeat split; reflexivity.
Qed.

(** ** [processLoanRequest] and the reputation threshold *)

(** [isAuthorized] never reports a refusal as insufficient reputation. *)
Lemma isAuthorized_refusal_reason (E : Env) (c : Contracts)
  (check : AuthorizationCheck) (h h1 : list event) (auth : AuthorizationResult) :
  isAuthorized E c check h = (Returns auth, h1) ->
  authorized auth = false ->
  is_InsufficientReputation
    (Some (string_or (auth_reason auth) "Not authorized")) = false.
Proof.
  rewrite isAuthorized_run.
  destruct (simulateCall E _ _ _ h) as [[v | e] h'];
    intros [= <- _]; cbn [authorized auth_reason]; intros Hno.
  - rewrite Hno. reflexivity.
  - reflexivity.
Qed.

(** C3, amended: a loan request is refused whenever the score read for the
    agent is below 60, whatever its authorization and whatever the amount.
    [canPerformAction] checks the authorization first: for an authorized
    agent the refusal is reported as insufficient reputation; for an
    unauthorized agent the score is not read and the refusal carries the
    reason of the authorization check. *)
Theorem processLoanRequest_low_score (E : Env) (c : Contracts)
  (borrower : string) (amount durationDays : number)
  (h h1 h2 : list event) (auth : AuthorizationResult) (rep : ReputationScore) :
  isAuthorized E c {| check_agent := borrower; check_action := "borrow";
                      check_amount := amount |} h = (Returns auth, h1) ->
  getScore E c borrower h1 = (Returns rep, h2) ->
  num_lt (score rep) (int 60) = true ->
  exists r,
    fst (processLoanRequest E c borrower amount durationDays h) = Returns r
    /\ approved r = false
    /\ (authorized auth = true ->
        is_InsufficientReputation (loan_reason r) = true
        /\ snd (processLoanRequest E c borrower amount durationDays h) = h2)
    /\ (authorized auth = false ->
        loan_reason r = Some (string_or (auth_reason auth) "Not authorized")
        /\ is_InsufficientReputation (loan_reason r) = false
        /\ snd (processLoanRequest E c borrower amount durationDays h) = h1).
Proof.
  intros Hauth Hscore Hlow.
  pose proof (isAuthorized_refusal_reason E c _ h h1 auth Hauth) as Hreason.
  unfold processLoanRequest, canPerformAction, try_catch, bind, ret.
  cbn [default_minimumReputation]. rewrite Hauth.
  destruct (authorized auth) eqn:Hok; cbn [negb].
  - rewrite Hscore, Hlow. cbn [canPerform negb fst snd].
    eexists. split; [reflexivity |]. split; [reflexivity |]. split.
    + intros _. split; reflexivity.
    + discriminate.
  - cbn [canPerform negb fst snd].
    eexists. split; [reflexivity |]. split; [reflexivity |]. split.
    + discriminate.
    + intros _. cbn [loan_reason check_reason]. repeat split.
      now apply Hreason.
Qed.

(** An authorized agent with score 50 is refused for insufficient
    reputation. *)
Lemma processLoanRequest_low_score_witness :
  let E := example_env simulate_ok (decode_chain true 50) prepare_ok in
  exists r,
    fst (processLoanRequest E futurenet_contracts example_borrower
           (int 600) (int 30) []) = Returns r
    /\ approved r = false
    /\ is_InsufficientReputation (loan_reason r) = true.
Proof.
  cbn zeta.
  set (E := example_env simulate_ok (decode_chain true 50) prepare_ok).
  set (check := {| check_agent := example_borrower; check_action := "borrow";
                   check_amount := int 600 |}).
  destruct (processLoanRequest_low_score E futurenet_contracts example_borrower
              (int 600) (int 30) []
              (snd (isAuthorized E futurenet_contracts check []))
              (snd (getScore E futurenet_contracts example_borrower
                      (snd (isAuthorized E futurenet_contracts check []))))
              {| authorized := true; auth_reason := None |}
              {| score := int 50; score_tier := tier_basic;
                 lastUpdated := int 1700000000000 |}
              eq_refl eq_refl eq_refl) as (r & Hrun & Hno & Hauth & _).
  exists r. split; [exact Hrun |]. split; [exact Hno |].
  exact (proj1 (Hauth eq_refl)).
Defined.

(** C3 as stated fails: an unauthorized agent with score 50 is refused, but
    with the reason of the authorization check, not for insufficient
    reputation. *)
Lemma processLoanRequest_unauthorized_low_score :
  let E := example_env simulate_ok (decode_chain false 50) prepare_ok in
  let c := futurenet_contracts in
  (exists rep, fst (getScore E c example_borrower []) = Returns rep
               /\ score rep = int 50 /\ num_lt (score rep) (int 60) = true)
  /\ fst (processLoanRequest E c example_borrower (int 600) (int 30) [])
     = Returns {| approved := false;
                  loan_reason := Some "Agent not authorized or amount exceeds limit";
                  loan_maxAllowed := None; interestRate := None |}
  /\ is_InsufficientReputation
       (Some "Agent not authorized or amount exceeds limit") = false.
Proof.
  cbn zeta. split; [| split; reflexivity].
  eexists. repeat split.
Qed.

(** ** The registry: revocation is permanent *)

Lemma revoke_agent_revokes (caller owner' agent : string)
  (reg reg' : gmap string AgentRecord) :
  revoke_agent caller owner' agent reg = inr reg' -> is_revoked agent reg'.
Proof.
  unfold revoke_agent, is_revoked.
  destruct (negb (String.eqb caller owner')); [discriminate |].
  destruct (reg !! agent) as [r |]; [| discriminate].
  destruct (negb (String.eqb (owner r) owner')); [discriminate |].
  intros [= <-]. eexists. split; [apply lookup_insert_eq | reflexivity].
Qed.

Lemma apply_op_keeps_revoked (agent : string) (reg : gmap string AgentRecord)
  (op : registry_op) :
  is_revoked agent reg -> is_revoked agent (apply_op reg op).
Proof.
  intros (r & Hr & Hrev). unfold is_revoked.
  destruct op as [caller o a s m | caller o a]; cbn [apply_op].
  - unfold register_agent.
    destruct (negb (String.eqb caller o)); [eauto |].
    destruct (decide (a = agent)) as [-> | Hne].
    + rewrite Hr. destruct (negb (String.eqb (owner r) o)); [eauto |].
      eexists. split; [apply lookup_insert_eq | exact Hrev].
    + destruct (reg !! a) as [r0 |].
      * destruct (negb (String.eqb (owner r0) o)); [eauto |].
        exists r. split; [| exact Hrev]. now rewrite lookup_insert_ne.
      * exists r. split; [| exact Hrev]. now rewrite lookup_insert_ne.
  - unfold revoke_agent.
    destruct (negb (String.eqb caller o)); [eauto |].
    destruct (decide (a = agent)) as [-> | Hne].
    + rewrite Hr. destruct (negb (String.eqb (owner r) o)); [eauto |].
      eexists. split; [apply lookup_insert_eq | reflexivity].
    + destruct (reg !! a) as [r0 |]; [| eauto].
      destruct (negb (String.eqb (owner r0) o)); [eauto |].
      exists r. split; [| exact Hrev]. now rewrite lookup_insert_ne.
Qed.

Lemma apply_ops_keep_revoked (agent : string) (ops : list registry_op) :
  forall reg, is_revoked agent reg -> is_revoked agent (apply_ops reg ops).
Proof.
  unfold apply_ops.
  induction ops as [| op ops IH]; intros reg Hrev; cbn [fold_left].
  - exact Hrev.
  - apply IH. now apply apply_op_keeps_revoked.
Qed.

Lemma revoked_not_authorized (agent action : string) (amount : N)
  (reg : gmap string AgentRecord) :
  is_revoked agent reg -> is_authorized agent action amount reg = false.
Proof.
  intros (r & Hr & Hrev). unfold is_authorized. now rewrite Hr, Hrev.
Qed.

(** C7: once the record of an agent has [revoked = true], it keeps it
    through every later sequence of registry operations, whoever calls them
    and whether they succeed or abort, and [is_authorized] answers false for
    that agent for every action and every amount after each of them. *)
Theorem revoked_is_permanent (reg : gmap string AgentRecord) (agent : string)
  (r : AgentRecord) :
  reg !! agent = Some r ->
  revoked r = true ->
  forall ops : list registry_op,
    (exists r', apply_ops reg ops !! agent = Some r' /\ revoked r' = true)
    /\ forall (action : string) (amount : N),
         is_authorized agent action amount (apply_ops reg ops) = false.
Proof.
  intros Hr Hrev ops.
  assert (Hkept : is_revoked agent (apply_ops reg ops)).
  { apply apply_ops_keep_revoked. now exists r. }
  split; [exact Hkept |].
  intros action amount. now apply revoked_not_authorized.
Qed.

(** An agent registered for borrowing up to 1000 and then revoked stays
    unauthorized when its owner registers it again. *)
Lemma revoked_is_permanent_witness :
  let r := {| owner := "GOWNER"; scopes := {["borrow"]}; max_amount := 1000%N;
              revoked := true |} in
  let reg : gmap string AgentRecord := {[ "GAGENT" := r ]} in
  let ops := [RegisterAgent "GOWNER" "GOWNER" "GAGENT" {["borrow"]} 1000%N] in
  reg !! "GAGENT" = Some r
  /\ revoked r = true
  /\ is_authorized "GAGENT" "borrow" 900%N (apply_ops reg ops) = false.
Proof.
  cbn zeta.
  assert (Hr : ({[ "GAGENT" := {| owner := "GOWNER"; scopes := {["borrow"]};
                                  max_amount := 1000%N; revoked := true |} ]}
                : gmap string AgentRecord) !! "GAGENT"
               = Some {| owner := "GOWNER"; scopes := {["borrow"]};
                         max_amount := 1000%N; revoked := true |})
    by apply lookup_singleton_eq.
  split; [exact Hr |]. split; [reflexivity |].
  exact (proj2 (revoked_is_permanent _ "GAGENT" _ Hr eq_refl
                  [RegisterAgent "GOWNER" "GOWNER" "GAGENT" {["borrow"]} 1000%N])
           "borrow" 900%N).
Defined.

(** The round trip of the specification on the modelled registry: an agent
    registered for borrowing and repaying up to 1000 may borrow 900, may not
    trade, and may not borrow 1001; once revoked it may not borrow at all. *)
Lemma register_agent_round_trip :
  exists reg reg' : gmap string AgentRecord,
    register_agent "GOWNER" "GOWNER" "GAGENT" {["borrow"; "repay"]} 1000%N ∅
      = inr reg
    /\ is_authorized "GAGENT" "borrow" 900%N reg = true
    /\ is_authorized "GAGENT" "trade" 1%N reg = false
    /\ is_authorized "GAGENT" "borrow" 1001%N reg = false
    /\ revoke_agent "GOWNER" "GOWNER" "GAGENT" reg = inr reg'
    /\ is_authorized "GAGENT" "borrow" 900%N reg' = false.
Proof.
  eexists. eexists.
  split; [unfold register_agent; rewrite String.eqb_refl, lookup_empty; reflexivity |].
  assert (Hborrow : "borrow" ∈ ({["borrow"; "repay"]} : gset string)).
  { apply elem_of_union. left. now apply elem_of_singleton. }
  assert (Htrade : "trade" ∉ ({["borrow"; "repay"]} : gset string)).
  { intros [H | H]%elem_of_union; apply elem_of_singleton in H; discriminate. }
  unfold is_authorized. rewrite !lookup_insert_eq.
  cbn [revoked scopes max_amount negb].
  rewrite (bool_decide_eq_true_2 _ Hborrow), (bool_decide_eq_false_2 _ Htrade).
  split; [reflexivity |]. split; [reflexivity |]. split; [reflexivity |].
  split.
  - unfold revoke_agent. rewrite String.eqb_refl; cbn [negb].
    rewrite lookup_insert_eq; cbn [owner]. rewrite String.eqb_refl. reflexivity.
  - reflexivity.
Qed.

(** * Further properties of the SDK *)

(** ** Tiers as a function of the score *)

Lemma getTier_int_cases (z : Z) :
  0 <= z <= 100 ->
  (0 <= z <= 49 /\ getTier (int z) = tier_no_credit)
  \/ (50 <= z <= 59 /\ getTier (int z) = tier_basic)
  \/ (60 <= z <= 74 /\ getTier (int z) = tier_good)
  \/ (75 <= z <= 89 /\ getTier (int z) = tier_excellent)
  \/ (90 <= z <= 100 /\ getTier (int z) = tier_elite).
Proof.
  intros Hz. rewrite getTier_int.
  destruct ((0 <=? z) && (z <=? 49)) eqn:H0; [Zbool; left; split; [lia | reflexivity] |].
  destruct ((50 <=? z) && (z <=? 59)) eqn:H1;
    [Zbool; right; left; split; [lia | reflexivity] |].
  destruct ((60 <=? z) && (z <=? 74)) eqn:H2;
    [Zbool; right; right; left; split; [lia | reflexivity] |].
  destruct ((75 <=? z) && (z <=? 89)) eqn:H3;
    [Zbool; right; right; right; left; split; [lia | reflexivity] |].
  destruct ((90 <=? z) && (z <=? 100)) eqn:H4;
    [Zbool; right; right; right; right; split; [lia | reflexivity] |].
  apply andb_false_iff in H0, H1, H2, H3, H4.
  exfalso. destruct H0, H1, H2, H3, H4; Zbool; lia.
Qed.

(** Whatever the score, [getTier] returns a band of the table. *)
Lemma getTier_in_table (s : number) : In (getTier s) REPUTATION_TIERS.
Proof.
  unfold getTier.
  destruct (find (in_band s) REPUTATION_TIERS) as [t |] eqn:Hfind.
  - apply find_some in Hfind. tauto.
  - left. reflexivity.
Qed.

Ltac tier_cases z H :=
  destruct (getTier_int_cases z H)
    as [[? ->] | [[? ->] | [[? ->] | [[? ->] | [? ->]]]]].

(** X1: on integer scores in [0,100] a higher score never gives a lower
    tier nor a lower loan limit. *)
Theorem getTier_monotone (a b : Z) :
  0 <= a -> a <= b -> b <= 100 ->
  num_le (tier (getTier (int a))) (tier (getTier (int b))) = true
  /\ num_le (getMaxLoanAmount (int a)) (getMaxLoanAmount (int b)) = true.
Proof.
  intros Ha Hab Hb. unfold getMaxLoanAmount.
  assert (Hza : 0 <= a <= 100) by lia. assert (Hzb : 0 <= b <= 100) by lia.
  tier_cases a Hza; tier_cases b Hzb; first [split; reflexivity | lia].
Qed.

Lemma getTier_monotone_witness :
  num_le (getMaxLoanAmount (int 59)) (getMaxLoanAmount (int 60)) = true.
Proof.
  exact (proj2 (getTier_monotone 59 60 ltac:(lia) ltac:(lia) ltac:(lia))).
Defined.

(** X2: for an integer score in [0,100], [qualifiesForTier] with the number
    of a band of the table holds exactly when the score reaches the lower
    bound of that band. *)
Theorem qualifiesForTier_threshold (z : Z) (t : ReputationTier) :
  0 <= z <= 100 ->
  In t REPUTATION_TIERS ->
  qualifiesForTier (int z) (tier t) = num_ge (int z) (minScore t).
Proof.
  intros Hz Hin. apply in_REPUTATION_TIERS in Hin.
  unfold qualifiesForTier, num_ge.
  destruct Hin as [-> | [-> | [-> | [-> | ->]]]]; tier_cases z Hz;
    cbn [tier minScore tier_no_credit tier_basic tier_good tier_excellent tier_elite];
    rewrite !num_le_int; symmetry;
    first [ apply Z.leb_le; lia | apply Z.leb_gt; lia ].
Qed.

Lemma qualifiesForTier_threshold_witness :
  qualifiesForTier (int 74) (tier tier_excellent) = false
  /\ qualifiesForTier (int 75) (tier tier_excellent) = true.
Proof.
  assert (Hin : In tier_excellent REPUTATION_TIERS) by (cbn; tauto).
  split.
  - rewrite (qualifiesForTier_threshold 74 tier_excellent ltac:(lia) Hin). reflexivity.
  - rewrite (qualifiesForTier_threshold 75 tier_excellent ltac:(lia) Hin). reflexivity.
Defined.

(** X3: for integer inputs, whatever they are, the tier that
    [predictNewScore] attaches to the new score is a band of the table that
    contains it. *)
Theorem predictNewScore_tier_contains_score (s d : Z) (now : number) :
  let r := predictNewScore (int s) (int d) now in
  In (score_tier r) REPUTATION_TIERS
  /\ in_band (score r) (score_tier r) = true
  /\ score_tier r = getTier (score r).
Proof.
  cbn zeta.
  assert (Htier : score_tier (predictNewScore (int s) (int d) now)
                  = getTier (score (predictNewScore (int s) (int d) now)))
    by reflexivity.
  rewrite Htier, predictNewScore_int.
  pose proof (clamp_in_range (s + d)) as Hr.
  split; [apply getTier_in_table |]. split; [| reflexivity].
  destruct (in_band_table (clamp (s + d) 0 100)) as (B0 & B1 & B2 & B3 & B4).
  tier_cases (clamp (s + d) 0 100) Hr;
    first [rewrite B0 | rewrite B1 | rewrite B2 | rewrite B3 | rewrite B4];
    Zbool; lia.
Qed.

Lemma clamp_monotone (x y : Z) : x <= y -> clamp x 0 100 <= clamp y 0 100.
Proof.
  intros Hxy. unfold clamp.
  destruct (x <? 0) eqn:Hx0; destruct (y <? 0) eqn:Hy0;
    destruct (100 <? x) eqn:Hx1; destruct (100 <? y) eqn:Hy1;
    repeat match goal with
      | H : (_ <? _) = true |- _ => apply Z.ltb_lt in H
      | H : (_ <? _) = false |- _ => apply Z.ltb_ge in H
      end; lia.
Qed.

(** X4: on integers [predictNewScore] is monotone: a larger delta, or a
    larger current score, never gives a smaller new score. *)
Theorem predictNewScore_monotone (s1 s2 d1 d2 : Z) (now : number) :
  s1 <= s2 -> d1 <= d2 ->
  num_le (score (predictNewScore (int s1) (int d1) now))
         (score (predictNewScore (int s2) (int d2) now)) = true.
Proof.
  intros Hs Hd. rewrite !predictNewScore_int, num_le_int.
  apply Z.leb_le. apply clamp_monotone. lia.
Qed.

Lemma predictNewScore_monotone_witness :
  num_le (score (predictNewScore (int 95) (int 8) (int 0)))
         (score (predictNewScore (int 95) (int 12) (int 0))) = true.
Proof.
  exact (predictNewScore_monotone 95 95 8 12 (int 0) ltac:(lia) ltac:(lia)).
Defined.

(** X5: a default costs at least one tier: for every integer score from 50
    to 100, the score predicted after the DEFAULT delta of
    [REPUTATION_DELTAS] lies in a strictly lower tier. *)
Theorem default_lowers_the_tier (s : Z) (now : number) :
  50 <= s <= 100 ->
  let after := predictNewScore (int s) (REPUTATION_DELTAS DEFAULT) now in
  num_lt (tier (score_tier after)) (tier (getTier (int s))) = true.
Proof.
  intros Hs. cbn zeta.
  assert (Htier : score_tier (predictNewScore (int s) (REPUTATION_DELTAS DEFAULT) now)
                  = getTier (score (predictNewScore (int s) (int (-25)) now)))
    by reflexivity.
  rewrite Htier, predictNewScore_int.
  assert (Hc : clamp (s + -25) 0 100 = s - 25).
  { unfold clamp.
    replace (s + -25 <? 0) with false by (symmetry; apply Z.ltb_ge; lia).
    replace (100 <? s + -25) with false by (symmetry; apply Z.ltb_ge; lia). lia. }
  rewrite Hc.
  assert (Hs0 : 0 <= s <= 100) by lia. assert (Hs1 : 0 <= s - 25 <= 100) by lia.
  tier_cases s Hs0; tier_cases (s - 25) Hs1; first [reflexivity | lia].
Qed.

Lemma default_lowers_the_tier_witness :
  num_lt (tier (score_tier (predictNewScore (int 100) (REPUTATION_DELTAS DEFAULT) (int 0))))
         (tier (getTier (int 100))) = true.
Proof.
  exact (default_lowers_the_tier 100 (int 0) ltac:(lia)).
Defined.

(** ** Queries only read *)

Lemma extends_read_only_refl (h : list event) : extends_read_only h h.
Proof. exists []. split; [now rewrite app_nil_r | reflexivity]. Qed.

Lemma extends_read_only_one (h : list event) (ev : event) :
  is_read_only ev = true -> extends_read_only h (h ++ [ev])%list.
Proof.
  intros Hev. exists [ev]. split; [reflexivity |]. cbn [forallb].
  now rewrite Hev.
Qed.

Lemma extends_read_only_trans (h1 h2 h3 : list event) :
  extends_read_only h1 h2 -> extends_read_only h2 h3 -> extends_read_only h1 h3.
Proof.
  intros (n1 & -> & H1) (n2 & -> & H2). exists (n1 ++ n2)%list. split.
  - now rewrite app_assoc.
  - rewrite forallb_app, H1, H2. reflexivity.
Qed.

(** Read-only interactions build no contract transaction and submit nothing. *)
Lemma extends_read_only_no_submission (h h' : list event) :
  extends_read_only h h' ->
  extends_without_submission h h'
  /\ forall c, score_updates c h' = score_updates c h.
Proof.
  intros (new & -> & Hnew).
  assert (Hsub : forallb (fun ev => negb (is_submission ev)) new = true).
  { apply forallb_forall. intros ev Hin.
    rewrite forallb_forall in Hnew. specialize (Hnew ev Hin). now destruct ev. }
  assert (Hupd : forall c, score_updates c (h ++ new)%list = score_updates c h).
  { intros c. rewrite score_updates_app.
    assert (Hnil : score_updates c new = []).
    { clear Hsub. induction new as [| ev new IH]; [reflexivity |].
      cbn [forallb] in Hnew. apply andb_true_iff in Hnew. destruct Hnew as [Hev Hrest].
      cbn [score_updates]. destruct ev; try discriminate; cbn [score_update_of];
        now apply IH. }
    rewrite Hnil. apply app_nil_r. }
  split; [now exists new | exact Hupd].
Qed.

Lemma simulateCall_read_only (E : Env) (contractId method : string)
  (args : list value) (h : list event) :
  extends_read_only h (snd (simulateCall E contractId method args h)).
Proof.
  rewrite simulateCall_run; cbn zeta.
  destruct (readOnlyTx E h contractId method args) as [tx | e].
  - destruct (simulateTransaction E _ tx) as [[err | retval] | e]; cbn [snd];
      (eapply extends_read_only_trans;
       [apply extends_read_only_one | apply extends_read_only_one]; reflexivity).
  - cbn [snd]. now apply extends_read_only_one.
Qed.

Lemma read_only_total_ret {A : Type} (a : A) : read_only_total (ret a).
Proof. intros h. exists a, h. split; [reflexivity | apply extends_read_only_refl]. Qed.

Lemma read_only_total_bind {A B : Type} (m : M A) (k : A -> M B) :
  read_only_total m -> (forall a, read_only_total (k a)) ->
  read_only_total (bind m k).
Proof.
  intros Hm Hk h. destruct (Hm h) as (a & h1 & Hrun & Hext).
  destruct (Hk a h1) as (b & h2 & Hrun2 & Hext2).
  exists b, h2. unfold bind. rewrite Hrun. split; [exact Hrun2 |].
  eapply extends_read_only_trans; eassumption.
Qed.

Lemma isAuthorized_read_only (E : Env) (c : Contracts) (check : AuthorizationCheck) :
  read_only_total (isAuthorized E c check).
Proof.
  intros h. rewrite isAuthorized_run.
  pose proof (simulateCall_read_only E (agentManager c) "is_authorized"
                [VString (check_agent check); VString (check_action check);
                 VNumber (check_amount check)] h) as Hext.
  destruct (simulateCall E _ _ _ h) as [[v | e] h']; eexists; eexists;
    (split; [reflexivity | exact Hext]).
Qed.

Lemma getScore_read_only (E : Env) (c : Contracts) (agent : string) :
  read_only_total (getScore E c agent).
Proof.
  intros h. rewrite getScore_run.
  pose proof (simulateCall_read_only E (reputationManager c) "get_score"
                [VString agent] h) as Hext.
  destruct (simulateCall E _ _ _ h) as [[v | e] h']; eexists; eexists;
    (split; [reflexivity | exact Hext]).
Qed.

Lemma getInfo_read_only (E : Env) (c : Contracts) (agent : string) :
  read_only_total (getInfo E c agent).
Proof.
  intros h. rewrite getInfo_run.
  pose proof (simulateCall_read_only E (agentManager c) "get_agent_info"
                [VString agent] h) as Hext.
  destruct (simulateCall E _ _ _ h) as [[v | e] h']; eexists; eexists;
    (split; [reflexivity | exact Hext]).
Qed.

(** [try_catch] around a computation that never throws. *)
Lemma try_catch_total {A : Type} (m : M A) (handler : js_error -> M A) :
  read_only_total m -> forall h, try_catch m handler h = m h.
Proof.
  intros Hm h. destruct (Hm h) as (a & h' & Hrun & _).
  unfold try_catch. now rewrite Hrun.
Qed.

Lemma read_only_total_try_catch {A : Type} (m : M A) (handler : js_error -> M A) :
  read_only_total m -> read_only_total (try_catch m handler).
Proof.
  intros Hm h. rewrite (try_catch_total m handler Hm). apply Hm.
Qed.

Lemma canPerformAction_read_only (E : Env) (c : Contracts) (agent action : string)
  (amount : number) (minimumReputation : option number) :
  read_only_total (canPerformAction E c agent action amount minimumReputation).
Proof.
  unfold canPerformAction. apply read_only_total_try_catch.
  apply read_only_total_bind; [apply isAuthorized_read_only |].
  intros auth. destruct (negb (authorized auth)); [apply read_only_total_ret |].
  apply read_only_total_bind; [apply getScore_read_only |].
  intros rep. destruct (num_lt _ _); [apply read_only_total_ret |].
  destruct (num_gt _ _); apply read_only_total_ret.
Qed.

Lemma processLoanRequest_read_only (E : Env) (c : Contracts) (borrower : string)
  (amount durationDays : number) :
  read_only_total (processLoanRequest E c borrower amount durationDays).
Proof.
  unfold processLoanRequest. apply read_only_total_try_catch.
  apply read_only_total_bind; [apply canPerformAction_read_only |].
  intros chk. destruct (negb (canPerform chk)); [apply read_only_total_ret |].
  apply read_only_total_bind.
  - unfold performBusinessChecks. destruct (num_gt _ _); apply read_only_total_ret.
  - intros bc. destruct (negb (passed bc)); apply read_only_total_ret.
Qed.

(** X6: the queries and checks of the SDK, the loan decision of
    [processLoanRequest] included, never throw and only read: from any
    history they return a value after read-only interactions, so they build
    no contract transaction and submit nothing. *)
Theorem queries_only_read (E : Env) (c : Contracts) :
  (forall check, read_only_total (isAuthorized E c check))
  /\ (forall agent, read_only_total (getInfo E c agent))
  /\ (forall agent, read_only_total (exists_ E c agent))
  /\ (forall agent, read_only_total (getScore E c agent))
  /\ (forall agent m, read_only_total (hasMinimumReputation E c agent m))
  /\ (forall agent action amount, read_only_total (checkAuthorization E c agent action amount))
  /\ (forall agent, read_only_total (getReputationScore E c agent))
  /\ (forall agent, read_only_total (DACTP_getMaxLoanAmount E c agent))
  /\ (forall agent action amount m,
         read_only_total (canPerformAction E c agent action amount m))
  /\ (forall borrower amount days,
         read_only_total (processLoanRequest E c borrower amount days))
  /\ (forall borrower, read_only_total (getBorrowerProfile E c borrower))
  /\ (forall (A : Type) (m : M A) (h : list event),
         read_only_total m ->
         extends_without_submission h (snd (m h))
         /\ score_updates c (snd (m h)) = score_updates c h).
Proof.
  assert (Hrep : forall agent, read_only_total (getReputationScore E c agent)).
  { intros agent. unfold getReputationScore.
    apply read_only_total_bind; [apply getScore_read_only |].
    intros rep. apply read_only_total_ret. }
  assert (Hmax : forall agent, read_only_total (DACTP_getMaxLoanAmount E c agent)).
  { intros agent. unfold DACTP_getMaxLoanAmount.
    apply read_only_total_bind; [apply Hrep |]. intros s. apply read_only_total_ret. }
  repeat split.
  - intros check. apply isAuthorized_read_only.
  - intros agent. apply getInfo_read_only.
  - intros agent. unfold exists_.
    apply read_only_total_bind; [apply getInfo_read_only |].
    intros v. apply read_only_total_ret.
  - intros agent. apply getScore_read_only.
  - intros agent m. unfold hasMinimumReputation.
    apply read_only_total_bind; [apply getScore_read_only |].
    intros rep. apply read_only_total_ret.
  - intros agent action amount. unfold checkAuthorization.
    apply read_only_total_bind; [apply isAuthorized_read_only |].
    intros r. apply read_only_total_ret.
  - exact Hrep.
  - exact Hmax.
  - intros. apply canPerformAction_read_only.
  - intros. apply processLoanRequest_read_only.
  - intros borrower. unfold getBorrowerProfile.
    apply read_only_total_bind; [apply getScore_read_only |]. intros rep.
    apply read_only_total_bind; [apply Hmax |]. intros m.
    apply read_only_total_ret.
  - destruct (H h) as (a & h' & Hrun & Hext). rewrite Hrun; cbn [snd].
    exact (proj1 (extends_read_only_no_submission h h' Hext)).
  - destruct (H h) as (a & h' & Hrun & Hext). rewrite Hrun; cbn [snd].
    exact (proj2 (extends_read_only_no_submission h h' Hext) c).
Qed.

(** ** What [canPerformAction] and [processLoanRequest] allow *)

Lemma isAuthorized_true (E : Env) (c : Contracts) (check : AuthorizationCheck)
  (h h1 : list event) (auth : AuthorizationResult) :
  isAuthorized E c check h = (Returns auth, h1) ->
  authorized auth = true ->
  exists v,
    simulation_returns E (agentManager c) "is_authorized"
      [VString (check_agent check); VString (check_action check);
       VNumber (check_amount check)] h v
    /\ is_truthy v = true.
Proof.
  rewrite isAuthorized_run. unfold simulation_returns.
  destruct (simulateCall E _ _ _ h) as [[v | e] h'];
    intros [= <- <-]; cbn [authorized]; intros Hok; [| discriminate].
  exists v. split; [eauto | exact Hok].
Qed.

Lemma canPerformAction_unauthorized (E : Env) (c : Contracts)
  (agent action : string) (amount : number) (minimumReputation : option number)
  (h h1 : list event) (auth : AuthorizationResult) :
  isAuthorized E c {| check_agent := agent; check_action := action;
                      check_amount := amount |} h = (Returns auth, h1) ->
  authorized auth = false ->
  canPerformAction E c agent action amount minimumReputation h
  = (Returns {| canPerform := false;
                check_reason := Some (string_or (auth_reason auth) "Not authorized");
                currentReputation := None; check_maxAllowed := None |}, h1).
Proof.
  intros Hauth Hno. unfold canPerformAction, try_catch, bind, ret.
  rewrite Hauth, Hno. reflexivity.
Qed.

Lemma canPerformAction_authorized (E : Env) (c : Contracts)
  (agent action : string) (amount : number) (minimumReputation : option number)
  (h h1 h2 : list event) (auth : AuthorizationResult) (rep : ReputationScore) :
  isAuthorized E c {| check_agent := agent; check_action := action;
                      check_amount := amount |} h = (Returns auth, h1) ->
  authorized auth = true ->
  getScore E c agent h1 = (Returns rep, h2) ->
  let minimum := default_minimumReputation minimumReputation in
  canPerformAction E c agent action amount minimumReputation h
  = (Returns
       (if num_lt (score rep) minimum then
          {| canPerform := false;
             check_reason :=
               Some ("Insufficient reputation. Required: " ++ toString E minimum
                     ++ ", Current: " ++ toString E (score rep));
             currentReputation := Some (score rep); check_maxAllowed := None |}
        else if num_gt amount (getMaxLoanAmount (score rep)) then
          {| canPerform := false;
             check_reason := Some "Amount exceeds reputation-based limit";
             currentReputation := Some (score rep);
             check_maxAllowed := Some (getMaxLoanAmount (score rep)) |}
        else
          {| canPerform := true; check_reason := None;
             currentReputation := Some (score rep);
             check_maxAllowed := Some (getMaxLoanAmount (score rep)) |}), h2).
Proof.
  intros Hauth Hok Hscore. cbn zeta.
  unfold canPerformAction, try_catch, bind, ret.
  rewrite Hauth, Hok; cbn [negb]. rewrite Hscore.
  destruct (num_lt _ _); [reflexivity |]. destruct (num_gt _ _); reflexivity.
Qed.

(** X7: [canPerformAction] never throws, and when it answers
    [canPerform: true] the simulated [is_authorized] call returned a truthy
    value, the score read for the agent is not below the minimum, the amount
    does not exceed the loan limit of that score, and the answer carries that
    score and that limit; a refusal always carries a reason. *)
Theorem canPerformAction_sound (E : Env) (c : Contracts) (agent action : string)
  (amount : number) (minimumReputation : option number) (h : list event) :
  exists r h',
    canPerformAction E c agent action amount minimumReputation h = (Returns r, h')
    /\ (canPerform r = true ->
        (exists v,
            simulation_returns E (agentManager c) "is_authorized"
              [VString agent; VString action; VNumber amount] h v
            /\ is_truthy v = true)
        /\ exists s,
             currentReputation r = Some s
             /\ num_lt s (default_minimumReputation minimumReputation) = false
             /\ check_maxAllowed r = Some (getMaxLoanAmount s)
             /\ num_gt amount (getMaxLoanAmount s) = false
             /\ check_reason r = None)
    /\ (canPerform r = false -> exists why, check_reason r = Some why).
Proof.
  destruct (isAuthorized_read_only E c
              {| check_agent := agent; check_action := action;
                 check_amount := amount |} h) as (auth & h1 & Hauth & _).
  destruct (authorized auth) eqn:Hok.
  - destruct (getScore_read_only E c agent h1) as (rep & h2 & Hscore & _).
    rewrite (canPerformAction_authorized E c agent action amount minimumReputation
               h h1 h2 auth rep Hauth Hok Hscore).
    eexists; eexists. split; [reflexivity |].
    destruct (num_lt (score rep) _) eqn:Hlow; cbn [canPerform check_reason];
      [split; [discriminate | eauto] |].
    destruct (num_gt amount _) eqn:Hbig; cbn [canPerform check_reason];
      [split; [discriminate | eauto] |].
    split; [| discriminate]. intros _. split.
    + exact (isAuthorized_true E c _ h h1 auth Hauth Hok).
    + exists (score rep). cbn [currentReputation check_maxAllowed]. tauto.
  - rewrite (canPerformAction_unauthorized E c agent action amount minimumReputation
               h h1 auth Hauth Hok).
    eexists; eexists. split; [reflexivity |]. cbn [canPerform check_reason].
    split; [discriminate | eauto].
Qed.

(** The loan limits of the table are at most 10. *)
Lemma getMaxLoanAmount_at_most_10 (amount s : number) :
  num_gt amount (int 10) = true -> num_gt amount (getMaxLoanAmount s) = true.
Proof.
  unfold num_gt, getMaxLoanAmount. intros Hbig.
  pose proof (getTier_in_table s) as Hin. apply in_REPUTATION_TIERS in Hin.
  assert (Hq : forall q x : Q,
             (x <= 10)%Q -> negb (Qle_bool q (inject_Z 10)) = true ->
             negb (Qle_bool q x) = true).
  { intros q x Hx Hq. apply negb_true_iff in Hq. apply negb_true_iff.
    destruct (Qle_bool q x) eqn:Hle; [| reflexivity].
    apply Qle_bool_iff in Hle.
    assert (Hle10 : Qle_bool q (inject_Z 10) = true)
      by (apply Qle_bool_iff; eapply Qle_trans; eassumption).
    congruence. }
  destruct Hin as [-> | [-> | [-> | [-> | ->]]]];
    cbn [maxLoanAmount tier_no_credit tier_basic tier_good tier_excellent tier_elite];
    destruct amount as [q | | |]; cbn [num_lt int] in *;
    try discriminate; try reflexivity;
    (apply Hq; [unfold Qle; cbn; lia | exact Hbig]).
Qed.

Lemma num_gt_1000_10 (amount : number) :
  num_gt amount (int 1000) = true -> num_gt amount (int 10) = true.
Proof.
  unfold num_gt. destruct amount as [q | | |]; cbn [num_lt int];
    try discriminate; try reflexivity.
  intros Hq. apply negb_true_iff in Hq. apply negb_true_iff.
  destruct (Qle_bool q (inject_Z 10)) eqn:Hle; [| reflexivity].
  apply Qle_bool_iff in Hle.
  assert (Hle' : Qle_bool q (inject_Z 1000) = true).
  { apply Qle_bool_iff. eapply Qle_trans; [exact Hle |]. unfold Qle; cbn; lia. }
  congruence.
Qed.

(** [processLoanRequest] in terms of the answer of [canPerformAction]. *)
Lemma processLoanRequest_run (E : Env) (c : Contracts) (borrower : string)
  (amount durationDays : number) (h h' : list event) (chk : ActionCheck) :
  canPerformAction E c borrower "borrow" amount (Some (int 60)) h = (Returns chk, h') ->
  processLoanRequest E c borrower amount durationDays h =
    (Returns
       (if canPerform chk then
          if num_gt amount (int 1000) then
            {| approved := false;
               loan_reason := Some "Amount exceeds protocol maximum";
               loan_maxAllowed := None; interestRate := None |}
          else
            {| approved := true; loan_reason := None;
               loan_maxAllowed := check_maxAllowed chk;
               interestRate :=
                 Some (calculateInterestRate (to_number (currentReputation chk))) |}
        else
          {| approved := false; loan_reason := check_reason chk;
             loan_maxAllowed := check_maxAllowed chk; interestRate := None |}), h').
Proof.
  intros Hchk. unfold processLoanRequest, try_catch, bind. rewrite Hchk.
  destruct (canPerform chk); cbn [negb]; [| reflexivity].
  unfold performBusinessChecks. destruct (num_gt amount (int 1000)); reflexivity.
Qed.

(** X8: whatever the contracts answer, an amount above 10 is never allowed
    by [canPerformAction] and never approved by [processLoanRequest]: 10 is
    the largest loan limit of the tier table. *)
Theorem amount_above_ten_refused (E : Env) (c : Contracts) (agent action : string)
  (amount durationDays : number) (minimumReputation : option number)
  (h : list event) :
  num_gt amount (int 10) = true ->
  (exists r h',
      canPerformAction E c agent action amount minimumReputation h = (Returns r, h')
      /\ canPerform r = false)
  /\ (exists d h',
         processLoanRequest E c agent amount durationDays h = (Returns d, h')
         /\ approved d = false).
Proof.
  intros Hbig.
  assert (Hcheck : forall act m,
            exists r h',
              canPerformAction E c agent act amount m h = (Returns r, h')
              /\ canPerform r = false).
  { intros act m.
    destruct (canPerformAction_sound E c agent act amount m h)
      as (r & h' & Hrun & Hyes & _).
    exists r, h'. split; [exact Hrun |].
    destruct (canPerform r); [| reflexivity].
    destruct (Hyes eq_refl) as (_ & s & _ & _ & _ & Hfit & _).
    rewrite (getMaxLoanAmount_at_most_10 amount s Hbig) in Hfit. discriminate. }
  split; [apply Hcheck |].
  destruct (Hcheck "borrow" (Some (int 60))) as (r & h' & Hrun & Hno).
  rewrite (processLoanRequest_run E c agent amount durationDays h h' r Hrun), Hno.
  eexists; eexists. split; reflexivity.
Qed.

(** The request of the usage example, 500, is refused even for an
    authorized agent with the best score. *)
Lemma amount_above_ten_refused_witness :
  let E := example_env simulate_ok (decode_chain true 100) prepare_ok in
  num_gt (int 500) (int 10) = true
  /\ exists d h',
       processLoanRequest E futurenet_contracts example_borrower (int 500) (int 30) []
       = (Returns d, h')
       /\ approved d = false.
Proof.
  cbn zeta. split; [reflexivity |].
  exact (proj2 (amount_above_ten_refused
                  (example_env simulate_ok (decode_chain true 100) prepare_ok)
                  futurenet_contracts example_borrower "borrow" (int 500) (int 30)
                  None [] eq_refl)).
Defined.

(** X9: the decision of [processLoanRequest] is the answer of
    [canPerformAction] for 'borrow' with minimum reputation 60: approved
    exactly when [canPerform], with the same reason and limit.  The business
    check on amounts above 1000 never refuses anything. *)
Theorem processLoanRequest_follows_canPerformAction (E : Env) (c : Contracts)
  (borrower : string) (amount durationDays : number) (h : list event) :
  exists chk d h',
    canPerformAction E c borrower "borrow" amount (Some (int 60)) h = (Returns chk, h')
    /\ processLoanRequest E c borrower amount durationDays h = (Returns d, h')
    /\ approved d = canPerform chk
    /\ loan_reason d = check_reason chk
    /\ loan_maxAllowed d = check_maxAllowed chk
    /\ (canPerform chk = true -> num_gt amount (int 1000) = false).
Proof.
  destruct (canPerformAction_sound E c borrower "borrow" amount (Some (int 60)) h)
    as (chk & h' & Hrun & Hyes & Hno).
  exists chk. rewrite (processLoanRequest_run E c borrower amount durationDays h h' chk Hrun).
  eexists; eexists. split; [exact Hrun |]. split; [reflexivity |].
  destruct (canPerform chk) eqn:Hcan; [| repeat split; discriminate].
  destruct (Hyes eq_refl) as (_ & s & Hs & _ & Hmax & Hfit & Hnone).
  destruct (num_gt amount (int 1000)) eqn:Hbig.
  - apply num_gt_1000_10 in Hbig.
    rewrite (getMaxLoanAmount_at_most_10 amount s Hbig) in Hfit. discriminate.
  - cbn [approved loan_reason loan_maxAllowed]. rewrite Hnone. repeat split.
Qed.

(** ** An unreachable network *)

Lemma simulateCall_error_message (E : Env) (contractId method : string)
  (args : list value) (h h' : list event) (e : js_error) :
  simulateCall E contractId method args h = (Throws e, h') ->
  error_message e = "Contract simulation failed".
Proof.
  rewrite simulateCall_run; cbn zeta.
  destruct (readOnlyTx E h contractId method args) as [tx | e0].
  - destruct (simulateTransaction E _ tx) as [[err | retval] | e1];
      intros [= <- _]; reflexivity.
  - intros [= <- _]. reflexivity.
Qed.

Lemma offline_isAuthorized (E : Env) (c : Contracts) (check : AuthorizationCheck)
  (h : list event) :
  offline E ->
  exists h',
    isAuthorized E c check h
    = (Returns {| authorized := false;
                  auth_reason :=
                    Some "Authorization check failed: Contract simulation failed" |}, h').
Proof.
  intros Hoff. rewrite isAuthorized_run.
  destruct (Hoff (agentManager c) "is_authorized"
              [VString (check_agent check); VString (check_action check);
               VNumber (check_amount check)] h) as (e & h' & Hfail).
  rewrite Hfail. rewrite (simulateCall_error_message _ _ _ _ _ _ _ Hfail). eauto.
Qed.

Lemma offline_getScore (E : Env) (c : Contracts) (agent : string) (h : list event) :
  offline E ->
  exists h',
    getScore E c agent h
    = (Returns {| score := int 50; score_tier := tier_basic;
                  lastUpdated := clock E h' |}, h').
Proof.
  intros Hoff. rewrite getScore_run.
  destruct (Hoff (reputationManager c) "get_score" [VString agent] h)
    as (e & h' & Hfail).
  rewrite Hfail. eauto.
Qed.

(** X10: when every simulated call fails (the network cannot be reached),
    authorization fails closed but reputation does not: [checkAuthorization]
    answers false and [canPerformAction] refuses with the reason of the
    failed authorization check, while [getReputationScore] answers 50,
    [getMaxLoanAmount] answers 0.5, [hasMinimumReputation] answers whether
    50 reaches the minimum, and [exists] answers false. *)
Theorem offline_answers (E : Env) (c : Contracts) (h : list event) :
  offline E ->
  (forall agent action amount,
      exists h', checkAuthorization E c agent action amount h = (Returns false, h'))
  /\ (forall agent action amount m,
         exists h',
           canPerformAction E c agent action amount m h
           = (Returns {| canPerform := false;
                         check_reason :=
                           Some "Authorization check failed: Contract simulation failed";
                         currentReputation := None; check_maxAllowed := None |}, h'))
  /\ (forall agent,
         exists h', getReputationScore E c agent h = (Returns (int 50), h'))
  /\ (forall agent,
         exists h', DACTP_getMaxLoanAmount E c agent h = (Returns (Fin (1 # 2)), h'))
  /\ (forall agent m,
         exists h',
           hasMinimumReputation E c agent m h = (Returns (num_ge (int 50) m), h'))
  /\ (forall agent, exists h', exists_ E c agent h = (Returns false, h')).
Proof.
  intros Hoff.
  assert (Hrep : forall agent,
            exists h', getReputationScore E c agent h = (Returns (int 50), h')).
  { intros agent. destruct (offline_getScore E c agent h Hoff) as (h' & Hrun).
    exists h'. unfold getReputationScore, bind. now rewrite Hrun. }
  split; [| split; [| split; [| split; [| split]]]].
  - intros agent action amount.
    destruct (offline_isAuthorized E c
                {| check_agent := agent; check_action := action;
                   check_amount := amount |} h Hoff) as (h' & Hrun).
    exists h'. unfold checkAuthorization, bind. now rewrite Hrun.
  - intros agent action amount m.
    destruct (offline_isAuthorized E c
                {| check_agent := agent; check_action := action;
                   check_amount := amount |} h Hoff) as (h' & Hrun).
    exists h'.
    now rewrite (canPerformAction_unauthorized E c agent action amount m h h' _ Hrun eq_refl).
  - exact Hrep.
  - intros agent. destruct (Hrep agent) as (h' & Hrun).
    exists h'. unfold DACTP_getMaxLoanAmount, bind. now rewrite Hrun.
  - intros agent m. destruct (offline_getScore E c agent h Hoff) as (h' & Hrun).
    exists h'. unfold hasMinimumReputation, bind. now rewrite Hrun.
  - intros agent. unfold exists_, bind. rewrite getInfo_run.
    destruct (Hoff (agentManager c) "get_agent_info" [VString agent] h)
      as (e & h' & Hfail).
    rewrite Hfail. eauto.
Qed.

Lemma offline_example (decode : string -> outcome native)
  (prepare : string -> outcome transaction) :
  offline (example_env simulate_offline decode prepare).
Proof.
  intros contractId method args h. unfold simulation_fails.
  rewrite simulateCall_run. cbn. eauto.
Qed.

(** Off the network, an unknown agent still has the minimum reputation 50. *)
Lemma offline_answers_witness :
  let E := example_env simulate_offline (decode_chain true 80) prepare_ok in
  offline E
  /\ exists h',
       hasMinimumReputation E futurenet_contracts example_borrower (int 50) []
       = (Returns true, h').
Proof.
  cbn zeta. split; [apply offline_example |].
  destruct (offline_answers
              (example_env simulate_offline (decode_chain true 80) prepare_ok)
              futurenet_contracts [] (offline_example _ _))
    as (_ & _ & _ & _ & Hmin & _).
  exact (Hmin example_borrower (int 50)).
Defined.

(** ** The errors of the state-changing methods *)

Ltac wraps_errors_method :=
  intros h h' e; unfold try_catch, bind, ret, throw;
  destruct (signAndSend_is_false _);
  [ match goal with
    | |- context [buildContractTx ?E ?pk ?cid ?m ?args h] =>
        unfold buildContractTx, try_catch, perform, throw;
        destruct (preparedTx E h pk cid m args) as [tx | e0];
        [ discriminate |];
        destruct (includes "Account not found" (error_message e0));
        intros [= <- _]; cbn [error_code error_details error_message];
        (split; [reflexivity |]); eexists; (split; [reflexivity |]);
        (split; [reflexivity |]); cbn [error_code]; tauto
    end
  | intros [= <- _]; cbn [error_code error_details error_message];
    (split; [reflexivity |]); eexists; (split; [reflexivity |]);
    (split; [reflexivity |]); cbn [error_code wallet_not_implemented]; tauto ].

(** X11: whatever goes wrong in [register], [revoke] or [updateScore], the
    caller receives a [DACTPError] with code CONTRACT_ERROR, its message the
    label of the method followed by the message of the cause; the codes
    WALLET_ERROR (signing not implemented, account not found) and
    CONTRACT_ERROR of the cause are only found in [details]. *)
Theorem mutating_methods_wrap_errors (E : Env) (c : Contracts) (options : TxOptions) :
  (forall params,
      wraps_as_contract_error (register E c params options)
        "Agent registration failed: ")
  /\ (forall params,
         wraps_as_contract_error (revoke E c params options)
           "Agent revocation failed: ")
  /\ (forall params,
         wraps_as_contract_error (updateScore E c params options)
           "Reputation update failed: ").
Proof.
  split; [| split]; intros params; unfold wraps_as_contract_error.
  - unfold register. wraps_errors_method.
  - unfold revoke. wraps_errors_method.
  - unfold updateScore. wraps_errors_method.
Qed.

Lemma mutating_methods_wrap_errors_witness :
  let E := example_env simulate_ok (decode_chain true 80) prepare_unfunded in
  let params := {| rev_owner := "GOWNER"; rev_agent := example_borrower |} in
  exists e h',
    revoke E futurenet_contracts params unsigned_only [] = (Throws e, h')
    /\ error_code e = Some CONTRACT_ERROR
    /\ error_message e
       = "Agent revocation failed: Account not found: GOWNER. Fund this account first.".
Proof.
  cbn zeta.
  destruct (mutating_methods_wrap_errors
              (example_env simulate_ok (decode_chain true 80) prepare_unfunded)
              futurenet_contracts unsigned_only) as (_ & Hrevoke & _).
  eexists; eexists. split; [reflexivity |].
  destruct (Hrevoke {| rev_owner := "GOWNER"; rev_agent := example_borrower |}
              [] _ _ eq_refl) as (Hcode & _).
  split; [exact Hcode | reflexivity].
Defined.

(** ** The borrower profile *)

Lemma getScore_tier (E : Env) (c : Contracts) (agent : string)
  (h h' : list event) (rep : ReputationScore) :
  getScore E c agent h = (Returns rep, h') -> score_tier rep = getTier (score rep).
Proof.
  rewrite getScore_run.
  destruct (simulateCall E _ _ _ h) as [[v | e] h1]; intros [= <- _]; reflexivity.
Qed.


(** When the score drops from 80 to 40 between the two readings, the
    profile reports reputation 80 in tier Excellent with a maximum loan
    amount of 0. *)
Lemma getBorrowerProfile_readings_may_differ :
  fst (getBorrowerProfile example_env_changing futurenet_contracts example_borrower [])
  = Returns {| profile_reputation := int 80; profile_tier := "Excellent";
               profile_maxLoanAmount := int 0;
               estimatedInterestRate := calculateInterestRate (int 80) |}.
Proof. reflexivity. Qed.

(** ** Utility methods *)

Lemma length_append (s1 s2 : string) :
  String.length (s1 ++ s2) = (String.length s1 + String.length s2)%nat.
Proof.
  induction s1 as [| c s1 IH]; [reflexivity |].
  change (S (String.length (s1 ++ s2))
          = S (String.length s1 + String.length s2)%nat).
  now rewrite IH.
Qed.

Lemma length_substring (n m : nat) (s : string) :
  (n + m <= String.length s)%nat -> String.length (String.substring n m s) = m.
Proof.
  revert n m. induction s as [| c s IH]; intros n m Hle.
  - cbn [String.length] in Hle. assert (n = 0%nat) by lia. assert (m = 0%nat) by lia.
    subst. reflexivity.
  - destruct n as [| n].
    + destruct m as [| m]; [reflexivity |].
      cbn [String.substring String.length]. f_equal. apply IH.
      cbn [String.length] in Hle. lia.
    + cbn [String.substring]. apply IH. cbn [String.length] in Hle. lia.
Qed.

(** X13: [formatAddress] returns an address shorter than 8 characters as
    it is; a longer one becomes 11 characters, its first four, three dots
    and its last four.  In both cases the first character, which tells an
    account from a contract, is kept. *)
Theorem formatAddress_shape (address : string) :
  ((String.length address < 8)%nat -> formatAddress address = address)
  /\ ((8 <= String.length address)%nat ->
      String.length (formatAddress address) = 11%nat
      /\ formatAddress address
         = String.substring 0 4 address ++ "..."
           ++ String.substring (String.length address - 4) 4 address)
  /\ String.get 0 (formatAddress address) = String.get 0 address.
Proof.
  unfold formatAddress.
  destruct (Nat.ltb (String.length address) 8) eqn:Hshort.
  - rewrite orb_true_r. apply Nat.ltb_lt in Hshort.
    repeat split; intros; first [reflexivity | lia].
  - apply Nat.ltb_ge in Hshort.
    assert (Hne : String.eqb address "" = false).
    { apply String.eqb_neq. intros ->. cbn in Hshort. lia. }
    rewrite Hne. cbn [orb]. split; [intros; lia |]. split.
    + intros _. split; [| reflexivity].
      rewrite !length_append, !length_substring by lia. reflexivity.
    + destruct address as [| c rest]; [cbn in Hshort; lia |]. reflexivity.
Qed.

Lemma formatAddress_shape_witness :
  formatAddress example_borrower = "GBJN...E7ON".
Proof.
  destruct (formatAddress_shape example_borrower) as (_ & Hlong & _).
  destruct (Hlong ltac:(cbn; lia)) as [_ Heq]. rewrite Heq. reflexivity.
Defined.

(** X14: whole amounts of XLM convert exactly: for an integer [n] of at most
    900 million in absolute value (the range in which the products are exact
    doubles), [xlmToStroops(n)] is [n * 10000000] and [stroopsToXLM] brings
    it back to [n]. *)
Theorem xlm_stroops_round_trip (n : Z) :
  -900000000 <= n <= 900000000 ->
  xlmToStroops (int n) = int (n * 10000000)
  /\ strict_eq (stroopsToXLM (xlmToStroops (int n))) (int n) = true.
Proof.
  intros _.
  assert (Hto : xlmToStroops (int n) = int (n * 10000000)).
  { unfold xlmToStroops, int; cbn [num_mul Math_floor].
    rewrite <- inject_Z_mult, Qfloor_Z. reflexivity. }
  split; [exact Hto |]. rewrite Hto.
  unfold stroopsToXLM, int; cbn [num_div].
  change (Qeq_bool (inject_Z 10000000) 0) with false. cbn [strict_eq].
  apply Qeq_bool_iff. rewrite inject_Z_mult. field.
Qed.

Lemma xlm_stroops_round_trip_witness :
  xlmToStroops (int 10) = int 100000000.
Proof.
  exact (proj1 (xlm_stroops_round_trip 10 ltac:(lia))).
Defined.

(** ** [toScVal] *)

Lemma or_validation_error_code (r : outcome scval) (msg : string) (e : js_error) :
  or_validation_error r msg = Throws e ->
  error_code e = Some VALIDATION_ERROR /\ error_message e = msg.
Proof.
  destruct r as [sv | e0]; [discriminate |]. intros [= <-]. split; reflexivity.
Qed.

(** X15: [toScVal] throws nothing but [DACTPError]s with code
    VALIDATION_ERROR, whatever the library raises and however deep in an
    array it happens; [undefined] and [null] are always refused. *)
Theorem toScVal_validation_errors (E : Env) (L : ScValLib) :
  (forall (v : value) (type : option string) (e : js_error),
      toScVal E L v type = Throws e -> error_code e = Some VALIDATION_ERROR)
  /\ (forall type,
         toScVal E L VUndefined type
         = Throws (DACTPError "Cannot convert undefined to ScVal" VALIDATION_ERROR None)
         /\ toScVal E L VNull type
            = Throws (DACTPError "Cannot convert null to ScVal" VALIDATION_ERROR None))
  /\ (forall (items : list value) (type : option string),
         In VNull items \/ In VUndefined items ->
         exists cause,
           toScVal E L (VArray items) type
           = Throws (DACTPError "Failed to convert array to ScVal" VALIDATION_ERROR
                       (Some cause))).
Proof.
  split; [| split].
  - intros v type e. destruct v as [| | b | n | s | items | props]; cbn [toScVal].
    + intros [= <-]. reflexivity.
    + intros [= <-]. reflexivity.
    + intros H. now apply or_validation_error_code in H.
    + intros H. now apply or_validation_error_code in H.
    + destruct (looks_like_address "G" s); [| destruct (looks_like_address "C" s)];
        intros H; now apply or_validation_error_code in H.
    + match goal with
      | |- context [match ?conv with Returns _ => _ | Throws _ => _ end] =>
          destruct conv as [converted | e0]
      end.
      * intros H. now apply or_validation_error_code in H.
      * intros [= <-]. reflexivity.
    + intros H. now apply or_validation_error_code in H.
  - intros type. split; reflexivity.
  - intros items type Hbad.
    assert (Hconv : exists cause,
               (fix convert (l : list value) : outcome (list scval) :=
                  match l with
                  | [] => Returns []
                  | x :: rest =>
                      match toScVal E L x None with
                      | Throws e => Throws e
                      | Returns sx =>
                          match convert rest with
                          | Throws e => Throws e
                          | Returns srest => Returns (sx :: srest)
                          end
                      end
                  end) items = Throws cause).
    { induction items as [| x rest IH]; [destruct Hbad as [[] | []] |].
      destruct (toScVal E L x None) as [sx | e0] eqn:Hx; [| eauto].
      assert (Hrest : In VNull rest \/ In VUndefined rest).
      { destruct Hbad as [[-> | Hin] | [-> | Hin]]; try tauto; discriminate. }
      destruct (IH Hrest) as (cause & Hc). exists cause. rewrite Hc. reflexivity. }
    destruct Hconv as (cause & Hc). exists cause. cbn [toScVal]. now rewrite Hc.
Qed.

Lemma toScVal_validation_errors_witness :
  let L := {| Address_fromString := fun s => Returns (mkScVal s);
              nativeToScVal := fun _ _ => Returns (mkScVal "native");
              nativeToScVal_vec := fun _ => Returns (mkScVal "vec") |} in
  let E := example_env simulate_ok (decode_chain true 80) prepare_ok in
  In VNull [VString "borrow"; VNull]
  /\ exists cause,
       toScVal E L (VArray [VString "borrow"; VNull]) None
       = Throws (DACTPError "Failed to convert array to ScVal" VALIDATION_ERROR
                   (Some cause)).
Proof.
  cbn zeta.
  assert (Hin : In VNull [VString "borrow"; VNull]) by (right; left; reflexivity).
  split; [exact Hin |].
  destruct (toScVal_validation_errors
              (example_env simulate_ok (decode_chain true 80) prepare_ok)
              {| Address_fromString := fun s => Returns (mkScVal s);
                 nativeToScVal := fun _ _ => Returns (mkScVal "native");
                 nativeToScVal_vec := fun _ => Returns (mkScVal "vec") |})
    as (_ & _ & Harr).
  exact (Harr [VString "borrow"; VNull] None (or_introl Hin)).
Defined.

(** X16: [toScVal] hands a string to [Address.fromString] exactly when
    [isValidAgentAddress] or [isValidContractAddress] accepts it (56
    characters starting with 'G' or 'C'), and then an address the library
    rejects makes it throw; every other string is converted as a symbol, and
    a number is converted with type u64 unless a type is given. *)
Theorem toScVal_routes (E : Env) (L : ScValLib) (s : string) (type : option string) :
  (isValidAgentAddress (VString s) = true ->
   toScVal E L (VString s) type
   = or_validation_error (Address_fromString L s) ("Invalid Stellar address: " ++ s))
  /\ (isValidAgentAddress (VString s) = false ->
      isValidContractAddress (VString s) = true ->
      toScVal E L (VString s) type
      = or_validation_error (Address_fromString L s) ("Invalid contract address: " ++ s))
  /\ (isValidAgentAddress (VString s) = false ->
      isValidContractAddress (VString s) = false ->
      toScVal E L (VString s) type
      = or_validation_error (nativeToScVal L (VString s) (Some "symbol"))
          ("Failed to convert string " ++ s ++ " to ScVal"))
  /\ (forall n,
         toScVal E L (VNumber n) None
         = or_validation_error (nativeToScVal L (VNumber n) (Some "u64"))
             ("Failed to convert number " ++ toString E n ++ " to ScVal")).
Proof.
  unfold isValidAgentAddress, isValidContractAddress. cbn [toScVal].
  unfold looks_like_address.
  repeat split.
  - intros ->. reflexivity.
  - intros -> ->. reflexivity.
  - intros -> ->. reflexivity.
Qed.

Lemma toScVal_routes_witness :
  let L := {| Address_fromString := fun s => Throws (Error "invalid checksum");
              nativeToScVal := fun _ _ => Returns (mkScVal "native");
              nativeToScVal_vec := fun _ => Returns (mkScVal "vec") |} in
  let E := example_env simulate_ok (decode_chain true 80) prepare_ok in
  let s := "G!!!!!!!!!!!!!!!!!!!!!!!!!!!!!!!!!!!!!!!!!!!!!!!!!!!!!!!" in
  isValidAgentAddress (VString s) = true
  /\ toScVal E L (VString s) None
     = Throws (DACTPError ("Invalid Stellar address: " ++ s) VALIDATION_ERROR
                 (Some (Error "invalid checksum"))).
Proof.
  cbn zeta. split; [reflexivity |].
  exact (proj1 (toScVal_routes
                  (example_env simulate_ok (decode_chain true 80) prepare_ok)
                  {| Address_fromString := fun s => Throws (Error "invalid checksum");
                     nativeToScVal := fun _ _ => Returns (mkScVal "native");
                     nativeToScVal_vec := fun _ => Returns (mkScVal "vec") |}
                  "G!!!!!!!!!!!!!!!!!!!!!!!!!!!!!!!!!!!!!!!!!!!!!!!!!!!!!!!" None)
           eq_refl).
Defined.

(** ** The network table *)

(** X17: an integration is constructed on mainnet, testnet or futurenet, and
    its constructor throws exactly when [new StellarRpc.Server] throws on the
    RPC URL of that network.  When the client is constructed, it holds the
    server made for that URL, and only on futurenet do its agent-manager,
    reputation-manager and lending contract ids pass
    [isValidContractAddress]: on mainnet and testnet the three are empty.  The
    token id is valid on futurenet and testnet only: the mainnet id has 55
    characters.  A client constructed from the empty configuration has the
    futurenet contracts. *)
Theorem network_contract_ids (lib : RpcLib) (network : IntegrationNetwork) :
  let url := rpcUrl (NETWORK_CONFIGS (integration_network network)) in
  (forall client : StellarClient,
      integration_client lib network = Returns client ->
      let c := client_contracts client in
      new_Server lib url = Returns (client_rpc client)
      /\ (isValidContractAddress (VString (agentManager c)) = true
          <-> network = integration_futurenet)
      /\ (isValidContractAddress (VString (reputationManager c)) = true
          <-> network = integration_futurenet)
      /\ (isValidContractAddress (VString (lendingDemo c)) = true
          <-> network = integration_futurenet)
      /\ (isValidContractAddress (VString (xlmToken c)) = true
          <-> network = integration_futurenet \/ network = integration_testnet)
      /\ (network <> integration_futurenet ->
          agentManager c = "" /\ reputationManager c = "" /\ lendingDemo c = ""))
  /\ (forall e : js_error,
         integration_client lib network = Throws e <-> new_Server lib url = Throws e)
  /\ (forall client : StellarClient,
         new_StellarClient lib empty_config = Returns client ->
         client_contracts client = futurenet_contracts)
  /\ String.length (xlmToken (network_contracts (NETWORK_CONFIGS mainnet))) = 55%nat.
Proof.
  cbn zeta. split; [| split; [| split]].
  - intros client. unfold integration_client, new_StellarClient.
    cbn [config_network config_rpcUrl config_networkPassphrase config_contracts].
    destruct network; cbn [integration_network NETWORK_CONFIGS rpcUrl string_or];
      (destruct (new_Server lib _) as [rpc | e]; [| discriminate]);
      intros [= <-]; cbn;
      repeat split; intros; try reflexivity; try discriminate; try tauto;
      try congruence;
      try (match goal with H : _ \/ _ |- _ => destruct H; discriminate end).
  - intros e. unfold integration_client, new_StellarClient.
    cbn [config_network config_rpcUrl config_networkPassphrase config_contracts].
    destruct network; cbn [integration_network NETWORK_CONFIGS rpcUrl string_or];
      (destruct (new_Server lib _) as [rpc | e']); split; congruence.
  - intros client. unfold new_StellarClient, empty_config.
    cbn [config_network config_rpcUrl config_networkPassphrase config_contracts].
    destruct (new_Server lib _) as [rpc | e]; [| discriminate].
    intros [= <-]. reflexivity.
  - reflexivity.
Qed.

(** On futurenet, with a library that accepts https URLs, the client is
    constructed and its agent-manager id is a valid contract address. *)
Lemma network_contract_ids_witness :
  exists client : StellarClient,
    integration_client example_rpc_lib integration_futurenet = Returns client
    /\ serverURL (client_rpc client) = "https://rpc-futurenet.stellar.org"
    /\ isValidContractAddress (VString (agentManager (client_contracts client))) = true.
Proof.
  destruct (integration_client example_rpc_lib integration_futurenet)
    as [client | e] eqn:Hrun; [| discriminate Hrun].
  exists client.
  destruct (network_contract_ids example_rpc_lib integration_futurenet)
    as (Hids & _).
  destruct (Hids client Hrun) as (Hsrv & Hagent & _).
  split; [reflexivity |]. split.
  - cbn in Hsrv. now injection Hsrv as <-.
  - apply Hagent. reflexivity.
Defined.

(** An override of one contract id replaces that id and leaves the others. *)
Lemma new_StellarClient_override (lib : RpcLib) (network : Network) (id : string)
  (client : StellarClient) :
  let config :=
    {| config_network := Some network; config_rpcUrl := None;
       config_networkPassphrase := None;
       config_contracts :=
         Some {| override_agentManager := Some id;
                 override_reputationManager := None;
                 override_lendingDemo := None; override_xlmToken := None |} |} in
  let base := network_contracts (NETWORK_CONFIGS network) in
  new_StellarClient lib config = Returns client ->
  client_contracts client
  = {| agentManager := id; reputationManager := reputationManager base;
       lendingDemo := lendingDemo base; xlmToken := xlmToken base |}.
Proof.
  cbn zeta. unfold new_StellarClient.
  cbn [config_network config_rpcUrl config_networkPassphrase config_contracts].
  destruct (new_Server lib _) as [rpc | e]; [| discriminate].
  intros [= <-]. reflexivity.
Qed.

(** The standalone network is served over http: a library that refuses
    insecure URLs does not construct a client for it. *)
Lemma new_StellarClient_standalone :
  new_StellarClient example_rpc_lib
    {| config_network := Some standalone; config_rpcUrl := None;
       config_networkPassphrase := None; config_contracts := None |}
  = Throws (Error "Cannot connect to insecure Soroban RPC server").
Proof. reflexivity. Qed.

(** * The DEX integration *)

(** The limits of the five bands. *)
Lemma trading_limits_table :
  (getSpotTradingLimit (tier tier_no_credit) = int 0
   /\ getSpotTradingLimit (tier tier_basic) = int 100
   /\ getSpotTradingLimit (tier tier_good) = int 500
   /\ getSpotTradingLimit (tier tier_excellent) = int 2000
   /\ getSpotTradingLimit (tier tier_elite) = int 10000)
  /\ (getMarginTradingLimit (tier tier_no_credit) = int 0
      /\ getMarginTradingLimit (tier tier_basic) = int 0
      /\ getMarginTradingLimit (tier tier_good) = int 200
      /\ getMarginTradingLimit (tier tier_excellent) = int 1000
      /\ getMarginTradingLimit (tier tier_elite) = int 5000)
  /\ (getAllowedLeverage (tier tier_no_credit) = int 1
      /\ getAllowedLeverage (tier tier_basic) = int 1
      /\ getAllowedLeverage (tier tier_good) = int 2
      /\ getAllowedLeverage (tier tier_excellent) = int 5
      /\ getAllowedLeverage (tier tier_elite) = int 10).
Proof. repeat split. Qed.

(** X18: on integer scores in [0,100] a higher score never gives a lower
    spot limit, margin limit or leverage. *)
Theorem trading_limits_monotone (a b : Z) :
  0 <= a -> a <= b -> b <= 100 ->
  let ta := tier (getTier (int a)) in
  let tb := tier (getTier (int b)) in
  num_le (getSpotTradingLimit ta) (getSpotTradingLimit tb) = true
  /\ num_le (getMarginTradingLimit ta) (getMarginTradingLimit tb) = true
  /\ num_le (getAllowedLeverage ta) (getAllowedLeverage tb) = true.
Proof.
  intros Ha Hab Hb. cbn zeta.
  assert (Hza : 0 <= a <= 100) by lia. assert (Hzb : 0 <= b <= 100) by lia.
  tier_cases a Hza; tier_cases b Hzb; first [lia | repeat split].
Qed.

Lemma trading_limits_monotone_witness :
  num_le (getSpotTradingLimit (tier (getTier (int 59))))
         (getSpotTradingLimit (tier (getTier (int 60)))) = true.
Proof.
  exact (proj1 (trading_limits_monotone 59 60 ltac:(lia) ltac:(lia) ltac:(lia))).
Defined.

Lemma canExecuteTrade_run (E : Env) (c : Contracts) (trader : string)
  (amount : number) (type : TradeType) (h h' : list event) (rep : ReputationScore) :
  getScore E c trader h = (Returns rep, h') ->
  let t := getTier (score rep) in
  canExecuteTrade E c trader amount type h =
    (Returns
       match type with
       | spot =>
           if num_gt amount (getSpotTradingLimit (tier t)) then
             {| canTrade := false;
                trade_maxAllowed := Some (getSpotTradingLimit (tier t));
                trade_reason := Some ("Trade amount exceeds " ++ name t ++ " tier limit");
                leverageAllowed := None |}
           else
             {| canTrade := true;
                trade_maxAllowed := Some (getSpotTradingLimit (tier t));
                trade_reason := None; leverageAllowed := Some (int 1) |}
       | margin =>
           if num_lt (score rep) (int 70) then
             {| canTrade := false; trade_maxAllowed := Some (int 0);
                trade_reason := Some "Margin trading requires reputation score of 70+";
                leverageAllowed := None |}
           else if num_gt amount (getMarginTradingLimit (tier t)) then
             {| canTrade := false;
                trade_maxAllowed := Some (getMarginTradingLimit (tier t));
                trade_reason := Some ("Trade amount exceeds " ++ name t ++ " tier limit");
                leverageAllowed := None |}
           else
             {| canTrade := true;
                trade_maxAllowed := Some (getMarginTradingLimit (tier t));
                trade_reason := None;
                leverageAllowed := Some (getAllowedLeverage (tier t)) |}
       end, h').
Proof.
  intros Hscore. cbn zeta.
  pose proof (getScore_tier E c trader h h' rep Hscore) as Htier.
  unfold canExecuteTrade, try_catch, bind, ret, tier_number.
  rewrite Hscore, Htier.
  destruct type.
  - destruct (num_gt _ _); reflexivity.
  - destruct (num_lt _ _); [reflexivity |]. destruct (num_gt _ _); reflexivity.
Qed.

(** The trading limits of the table are at most 10000. *)
Lemma trading_limits_at_most_10000 (amount s : number) :
  num_gt amount (int 10000) = true ->
  num_gt amount (getSpotTradingLimit (tier (getTier s))) = true
  /\ num_gt amount (getMarginTradingLimit (tier (getTier s))) = true.
Proof.
  unfold num_gt. intros Hbig.
  pose proof (getTier_in_table s) as Hin. apply in_REPUTATION_TIERS in Hin.
  destruct trading_limits_table as ((S0 & S1 & S2 & S3 & S4)
                                    & (M0 & M1 & M2 & M3 & M4) & _).
  assert (Hq : forall (q : Q) (x : Z),
             x <= 10000 -> negb (Qle_bool q (inject_Z 10000)) = true ->
             negb (Qle_bool q (inject_Z x)) = true).
  { intros q x Hx Hq. apply negb_true_iff in Hq. apply negb_true_iff.
    destruct (Qle_bool q (inject_Z x)) eqn:Hle; [| reflexivity].
    apply Qle_bool_iff in Hle.
    assert (Hle' : Qle_bool q (inject_Z 10000) = true).
    { apply Qle_bool_iff. eapply Qle_trans; [exact Hle |]. now rewrite <- Zle_Qle. }
    congruence. }
  destruct Hin as [-> | [-> | [-> | [-> | ->]]]];
    first [rewrite S0, M0 | rewrite S1, M1 | rewrite S2, M2
          | rewrite S3, M3 | rewrite S4, M4];
    destruct amount as [q | | |]; cbn [num_lt int] in *;
    try discriminate; try (split; reflexivity);
    (split; apply Hq; [lia | exact Hbig | lia | exact Hbig]).
Qed.

(** X19: [canExecuteTrade] never throws and only reads.  When it allows a
    trade, the amount does not exceed the limit of the tier of the score it
    read, the spot limit with leverage 1 for a spot trade, the margin limit
    with the leverage of the tier for a margin trade, and for a margin trade
    that score is not below 70; a refusal carries a reason; and no amount
    above 10000 is ever allowed. *)
Theorem canExecuteTrade_sound (E : Env) (c : Contracts) (trader : string)
  (amount : number) (type : TradeType) (h : list event) :
  exists rep h' r,
    getScore E c trader h = (Returns rep, h')
    /\ extends_read_only h h'
    /\ canExecuteTrade E c trader amount type h = (Returns r, h')
    /\ (canTrade r = true ->
        let t := tier (getTier (score rep)) in
        match type with
        | spot =>
            trade_maxAllowed r = Some (getSpotTradingLimit t)
            /\ num_gt amount (getSpotTradingLimit t) = false
            /\ leverageAllowed r = Some (int 1)
        | margin =>
            num_lt (score rep) (int 70) = false
            /\ trade_maxAllowed r = Some (getMarginTradingLimit t)
            /\ num_gt amount (getMarginTradingLimit t) = false
            /\ leverageAllowed r = Some (getAllowedLeverage t)
        end)
    /\ (canTrade r = false -> exists why, trade_reason r = Some why)
    /\ (num_gt amount (int 10000) = true -> canTrade r = false).
Proof.
  destruct (getScore_read_only E c trader h) as (rep & h' & Hscore & Hext).
  exists rep, h'. eexists. split; [exact Hscore |]. split; [exact Hext |].
  split; [apply (canExecuteTrade_run E c trader amount type h h' rep Hscore) |].
  cbn zeta.
  pose proof (trading_limits_at_most_10000 amount (score rep)) as Hbig.
  destruct type.
  - destruct (num_gt amount (getSpotTradingLimit _)) eqn:Hgt;
      cbn [canTrade trade_reason trade_maxAllowed leverageAllowed].
    + split; [discriminate |]. split; [eauto | reflexivity].
    + split; [repeat split |]. split; [discriminate |].
      intros H. destruct (Hbig H) as [Hs _]. congruence.
  - destruct (num_lt (score rep) (int 70)) eqn:Hlow;
      cbn [canTrade trade_reason trade_maxAllowed leverageAllowed].
    + split; [discriminate |]. split; [eauto | reflexivity].
    + destruct (num_gt amount (getMarginTradingLimit _)) eqn:Hgt;
        cbn [canTrade trade_reason trade_maxAllowed leverageAllowed].
      * split; [discriminate |]. split; [eauto | reflexivity].
      * split; [repeat split |]. split; [discriminate |].
        intros H. destruct (Hbig H) as [_ Hm]. congruence.
Qed.

(** X20: when the network cannot be reached the DEX fails open for spot
    trades: the default score 50 puts every trader in the Basic tier, so a
    spot trade is allowed exactly when its amount does not exceed 100, while
    every margin trade is refused. *)
Theorem canExecuteTrade_offline (E : Env) (c : Contracts) (trader : string)
  (amount : number) (h : list event) :
  offline E ->
  (exists r h',
      canExecuteTrade E c trader amount spot h = (Returns r, h')
      /\ canTrade r = negb (num_gt amount (int 100))
      /\ trade_maxAllowed r = Some (int 100))
  /\ (exists r h',
         canExecuteTrade E c trader amount margin h = (Returns r, h')
         /\ canTrade r = false
         /\ trade_reason r = Some "Margin trading requires reputation score of 70+").
Proof.
  intros Hoff. destruct (offline_getScore E c trader h Hoff) as (h' & Hscore).
  split.
  - rewrite (canExecuteTrade_run E c trader amount spot h h' _ Hscore).
    cbn [score]. change (getSpotTradingLimit (tier (getTier (int 50)))) with (int 100).
    eexists; eexists. split; [reflexivity |].
    destruct (num_gt amount (int 100)); split; reflexivity.
  - rewrite (canExecuteTrade_run E c trader amount margin h h' _ Hscore).
    cbn [score]. change (num_lt (int 50) (int 70)) with true.
    eexists; eexists. split; [reflexivity |]. split; reflexivity.
Qed.

Lemma canExecuteTrade_offline_witness :
  let E := example_env simulate_offline (decode_chain true 80) prepare_ok in
  offline E
  /\ exists r h',
       canExecuteTrade E futurenet_contracts example_borrower (int 100) spot []
       = (Returns r, h')
       /\ canTrade r = true.
Proof.
  cbn zeta. split; [apply offline_example |].
  destruct (canExecuteTrade_offline
              (example_env simulate_offline (decode_chain true 80) prepare_ok)
              futurenet_contracts example_borrower (int 100) [] (offline_example _ _))
    as ((r & h' & Hrun & Hcan & _) & _).
  exists r, h'. split; [exact Hrun | exact Hcan].
Defined.

Lemma handleLiquidation_run (E : Env) (c : Contracts) (trader : string)
  (liquidationAmount : number) (h : list event) :
  handleLiquidation E c trader liquidationAmount h =
    (Returns tt,
     (h ++ [EvBuildContractTx "DEX_PROTOCOL_ADDRESS" (reputationManager c)
              "update_score"
              [VString "DEX_PROTOCOL_ADDRESS"; VString trader;
               VNumber (if num_gt liquidationAmount (int 1000) then int (-15)
                        else int (-10))]])%list).
Proof.
  unfold handleLiquidation, try_catch, bind, ret.
  pose proof (updateReputation_unsigned E c "DEX_PROTOCOL_ADDRESS" trader
                (if num_gt liquidationAmount (int 1000) then int (-15)
                 else int (-10)) h) as Hupd.
  cbn zeta in Hupd.
  destruct (preparedTx E h "DEX_PROTOCOL_ADDRESS" (reputationManager c)
              "update_score" _) as [tx | e0].
  - now rewrite Hupd.
  - destruct Hupd as (e & ->). reflexivity.
Qed.

(** X21: [handleLiquidation] never throws and submits nothing; it asks once
    for an unsigned [update_score] transaction for the trader, with delta
    -15 when the liquidated amount exceeds 1000 and -10 otherwise, an amount
    that is not a number included, and it returns normally whether or not
    that transaction can be built. *)
Theorem handleLiquidation_penalty (E : Env) (c : Contracts) (trader : string)
  (liquidationAmount : number) (h : list event) :
  let delta := if num_gt liquidationAmount (int 1000) then int (-15) else int (-10) in
  let request :=
    EvBuildContractTx "DEX_PROTOCOL_ADDRESS" (reputationManager c) "update_score"
      [VString "DEX_PROTOCOL_ADDRESS"; VString trader; VNumber delta] in
  let run := handleLiquidation E c trader liquidationAmount h in
  run = (Returns tt, (h ++ [request])%list)
  /\ extends_without_submission h (snd run)
  /\ (num_gt liquidationAmount (int 1000) = true ->
      delta = int (-15)
      /\ score_updates c (snd run) = (score_updates c h ++ [(trader, int (-15))])%list)
  /\ (num_gt liquidationAmount (int 1000) = false ->
      delta = int (-10)
      /\ score_updates c (snd run) = (score_updates c h ++ [(trader, int (-10))])%list)
  /\ num_gt NaN (int 1000) = false.
Proof.
  cbn zeta. rewrite handleLiquidation_run. cbn [fst snd].
  rewrite score_updates_app, score_updates_update_score.
  split; [reflexivity |]. split; [now apply extends_one |].
  split; [| split]; [intros -> | intros -> |]; try split; reflexivity.
Qed.

(** The protocol's placeholder address is no account of the network: the
    penalty of a liquidation of 1001 is asked for, with delta -15, and no
    transaction is built. *)
Lemma handleLiquidation_penalty_witness :
  let E := example_env simulate_ok (decode_chain true 80) prepare_unfunded in
  let c := futurenet_contracts in
  let args := [VString "DEX_PROTOCOL_ADDRESS"; VString example_borrower;
               VNumber (int (-15))] in
  num_gt (int 1001) (int 1000) = true
  /\ preparedTx E [] "DEX_PROTOCOL_ADDRESS" (reputationManager c) "update_score" args
     = Throws (Error "Account not found")
  /\ handleLiquidation E c example_borrower (int 1001) []
     = (Returns tt,
        [EvBuildContractTx "DEX_PROTOCOL_ADDRESS" (reputationManager c)
           "update_score" args])
  /\ score_updates c (snd (handleLiquidation E c example_borrower (int 1001) []))
     = [(example_borrower, int (-15))].
Proof.
  cbn zeta. split; [reflexivity |]. split; [reflexivity |].
  destruct (handleLiquidation_penalty
              (example_env simulate_ok (decode_chain true 80) prepare_unfunded)
              futurenet_contracts example_borrower (int 1001) [])
    as (Hrun & _ & Hbig & _).
  split; [exact Hrun | exact (proj2 (Hbig eq_refl))].
Defined.

(** X22: [executeTrade] never throws.  A trade that [canExecuteTrade]
    refuses fails without any reputation update being asked for.  An allowed
    trade asks once for an unsigned [update_score] transaction for the
    trader, with delta +2 (spot) or +3 (margin) after a profit, -10 after a
    major loss and -2 after another loss; it succeeds, with a trade id and
    that delta, when the transaction is built, and fails when the build
    throws.  Nothing is submitted.  The requested leverage plays no part: it
    is never compared with the allowed leverage. *)
Theorem executeTrade_outcomes (E : Env) (c : Contracts) (coin1 coin2 : bool)
  (trader : string) (amount : number) (type : TradeType) (leverage : number)
  (h : list event) :
  exists chk h1,
    canExecuteTrade E c trader amount type h = (Returns chk, h1)
    /\ extends_read_only h h1
    /\ (canTrade chk = false ->
        executeTrade E c coin1 coin2 trader amount type leverage h
        = (Returns {| trade_success := false; trade_tradeId := None;
                      trade_reputationDelta := None |}, h1)
        /\ score_updates c h1 = score_updates c h)
    /\ (canTrade chk = true ->
        let run := executeTrade E c coin1 coin2 trader amount type leverage h in
        exists delta,
          let args := [VString "DEX_PROTOCOL_ADDRESS"; VString trader;
                       VNumber delta] in
          snd run
          = (h1 ++ [EvBuildContractTx "DEX_PROTOCOL_ADDRESS" (reputationManager c)
                      "update_score" args])%list
          /\ score_updates c (snd run) = (score_updates c h ++ [(trader, delta)])%list
          /\ (forall tx,
                 preparedTx E h1 "DEX_PROTOCOL_ADDRESS" (reputationManager c)
                   "update_score" args = Returns tx ->
                 fst run
                 = Returns {| trade_success := true;
                              trade_tradeId :=
                                Some ("trade_" ++ toString E (clock E h1));
                              trade_reputationDelta := Some delta |})
          /\ (forall e,
                 preparedTx E h1 "DEX_PROTOCOL_ADDRESS" (reputationManager c)
                   "update_score" args = Throws e ->
                 fst run
                 = Returns {| trade_success := false; trade_tradeId := None;
                              trade_reputationDelta := None |})
          /\ (coin1 = true -> type = spot ->
              delta = int 2 /\ delta = REPUTATION_DELTAS SUCCESSFUL_TRADE)
          /\ (coin1 = true -> type = margin -> delta = int 3)
          /\ (coin1 = false -> coin2 = true -> delta = int (-10))
          /\ (coin1 = false -> coin2 = false -> delta = int (-2)))
    /\ (forall leverage',
           executeTrade E c coin1 coin2 trader amount type leverage' h
           = executeTrade E c coin1 coin2 trader amount type leverage h)
    /\ extends_without_submission h
         (snd (executeTrade E c coin1 coin2 trader amount type leverage h)).
Proof.
  destruct (getScore_read_only E c trader h) as (rep & h1 & Hscore & Hext).
  pose proof (canExecuteTrade_run E c trader amount type h h1 rep Hscore) as Hrun.
  cbn zeta in Hrun.
  remember (match type with
            | spot => _
            | margin => _
            end) as chk eqn:Hchk in Hrun.
  clear Hchk.
  assert (Hyes_run : canTrade chk = true ->
    let delta := if coin1 then match type with margin => int 3 | spot => int 2 end
                 else if negb coin1 && coin2 then int (-10) else int (-2) in
    executeTrade E c coin1 coin2 trader amount type leverage h =
      (match preparedTx E h1 "DEX_PROTOCOL_ADDRESS" (reputationManager c)
               "update_score"
               [VString "DEX_PROTOCOL_ADDRESS"; VString trader; VNumber delta] with
       | Returns _ =>
           Returns {| trade_success := true;
                      trade_tradeId := Some ("trade_" ++ toString E (clock E h1));
                      trade_reputationDelta := Some delta |}
       | Throws _ =>
           Returns {| trade_success := false; trade_tradeId := None;
                      trade_reputationDelta := None |}
       end,
       (h1 ++ [EvBuildContractTx "DEX_PROTOCOL_ADDRESS" (reputationManager c)
                 "update_score"
                 [VString "DEX_PROTOCOL_ADDRESS"; VString trader;
                  VNumber delta]])%list)).
  { intros Hyes delta.
    pose proof (updateReputation_unsigned E c "DEX_PROTOCOL_ADDRESS" trader delta h1)
      as Hupd. cbn zeta in Hupd.
    unfold executeTrade, simulateTradeExecution, try_catch, bind, ret, Date_now.
    rewrite Hrun, Hyes. cbn [negb profitable majorLoss tradeId]. fold delta.
    destruct (preparedTx E h1 "DEX_PROTOCOL_ADDRESS" (reputationManager c)
                "update_score" _) as [tx | e0].
    - now rewrite Hupd.
    - destruct Hupd as (e & ->). reflexivity. }
  assert (Hno_run : canTrade chk = false ->
    executeTrade E c coin1 coin2 trader amount type leverage h
    = (Returns {| trade_success := false; trade_tradeId := None;
                  trade_reputationDelta := None |}, h1)).
  { intros Hno. unfold executeTrade, try_catch, bind, ret. now rewrite Hrun, Hno. }
  exists chk, h1. split; [exact Hrun |]. split; [exact Hext |].
  split; [| split; [| split]].
  - intros Hno. split; [exact (Hno_run Hno) |].
    exact (proj2 (extends_read_only_no_submission h h1 Hext) c).
  - intros Hyes. specialize (Hyes_run Hyes). cbn zeta in Hyes_run |- *.
    set (delta := if coin1 then match type with margin => int 3 | spot => int 2 end
                  else if negb coin1 && coin2 then int (-10) else int (-2))
      in Hyes_run |- *.
    exists delta. rewrite Hyes_run. cbn [fst snd].
    rewrite score_updates_app, score_updates_update_score.
    rewrite (proj2 (extends_read_only_no_submission h h1 Hext) c).
    split; [reflexivity |]. split; [reflexivity |].
    split; [now intros tx -> |]. split; [now intros e -> |].
    subst delta.
    repeat split; intros; subst; reflexivity.
  - intros leverage'. reflexivity.
  - destruct (canTrade chk) eqn:Hc.
    + rewrite (Hyes_run eq_refl). cbn [snd].
      eapply extends_trans;
        [exact (proj1 (extends_read_only_no_submission h h1 Hext)) |].
      apply extends_one. reflexivity.
    + rewrite (Hno_run eq_refl). cbn [snd].
      exact (proj1 (extends_read_only_no_submission h h1 Hext)).
Qed.

(** A spot trade of 100 by a trader of score 80 is allowed; the protocol's
    placeholder address is no account of the network, the transaction is
    not built, and the trade fails. *)
Lemma executeTrade_outcomes_witness :
  let E := example_env simulate_ok (decode_chain true 80) prepare_unfunded in
  let c := futurenet_contracts in
  exists chk h1,
    canExecuteTrade E c example_borrower (int 100) spot [] = (Returns chk, h1)
    /\ canTrade chk = true
    /\ fst (executeTrade E c true false example_borrower (int 100) spot (int 5) [])
       = Returns {| trade_success := false; trade_tradeId := None;
                    trade_reputationDelta := None |}.
Proof.
  cbn zeta.
  destruct (executeTrade_outcomes
              (example_env simulate_ok (decode_chain true 80) prepare_unfunded)
              futurenet_contracts true false example_borrower (int 100) spot
              (int 5) [])
    as (chk & h1 & Hrun & _ & _ & Hyes & _).
  exists chk, h1. split; [exact Hrun |].
  assert (Hchk : canTrade chk = true).
  { vm_compute in Hrun. now injection Hrun as <- _. }
  split; [exact Hchk |].
  destruct (Hyes Hchk) as (delta & _ & _ & _ & Hfail & _).
  apply (Hfail (Error "Account not found")).
  reflexivity.
Defined.

(** X23: [getTraderProfile] never throws; for an integer score in [0,100]
    it reports [canMarginTrade] exactly from score 70 on, and then a margin
    limit of at least 200 and a leverage of at least 2; for the scores 60 to
    69 it reports the margin limit 200 and the leverage 2 of the Good tier
    although [canMarginTrade] is false. *)
Theorem getTraderProfile_margin (E : Env) (c : Contracts) (trader : string)
  (h : list event) :
  exists rep h' p,
    getScore E c trader h = (Returns rep, h')
    /\ getTraderProfile E c trader h = (Returns p, h')
    /\ trader_reputation p = score rep
    /\ trader_tier p = getReputationLevel (score rep)
    /\ forall z : Z,
         score rep = int z -> 0 <= z <= 100 ->
         canMarginTrade p = (70 <=? z)
         /\ (70 <= z ->
             num_le (int 200) (marginTradingLimit p) = true
             /\ num_le (int 2) (maxLeverage p) = true)
         /\ (60 <= z <= 69 ->
             marginTradingLimit p = int 200 /\ maxLeverage p = int 2
             /\ canMarginTrade p = false).
Proof.
  destruct (getScore_read_only E c trader h) as (rep & h' & Hscore & _).
  pose proof (getScore_tier E c trader h h' rep Hscore) as Htier.
  exists rep, h'. eexists.
  split; [exact Hscore |].
  split; [unfold getTraderProfile, bind, ret; rewrite Hscore; reflexivity |].
  cbn [trader_reputation trader_tier canMarginTrade marginTradingLimit maxLeverage].
  unfold tier_number, getReputationLevel. rewrite Htier.
  split; [reflexivity |]. split; [reflexivity |].
  intros z Hz Hrange. rewrite Hz. unfold num_ge. rewrite num_le_int.
  split; [reflexivity |].
  tier_cases z Hrange; split; intros Hz';
    first [lia | repeat split; try reflexivity; apply Z.leb_gt; lia].
Qed.
